(** * jetlag: the actor-creation layer ([WorldApi]) and the game configuration

    A shallow embedding of [checkActorConfig], of the five actor-creation
    methods and the five parallax-layer methods of [WorldApi], of its
    [drawBoundingBox] and [enableTilt], and of the [GameConfig] object,
    followed by the properties that the specification states about them and
    by further properties of the code.

    The engine behind [WorldApi] ([JetLagStage], the actor classes,
    [ParallaxLayer], [PhysicsType2d]) is an opaque collaborator: a call into
    it is recorded, with its arguments, in the order in which it is made.

    The methods are embedded twice.  First for a descriptor that is a plain
    writable object and an engine that does not throw, where nothing can go
    wrong; then, in [Strict], with the descriptor as a reference (undefined,
    null, or an object that may be frozen) and an engine that may throw.
    The second agrees with the first where the first applies. *)

From Stdlib Require Import ZArith List String Bool Lia.
From Stdlib Require Import SpecFloat.
Import ListNotations.

Local Open Scope Z_scope.

(** ** JavaScript values *)

Module JS.

(** A JavaScript [number] is an IEEE 754 binary64 value: a signed zero, a
    signed infinity, NaN, or a sign, a mantissa and an exponent.  Every
    binary64 value is a [spec_float]; what is proved below for all
    [spec_float]s holds for all of them. *)
Definition number : Type := spec_float.
Definition prec : Z := 53.
Definition emax : Z := 1024.

(** The value of an integer literal. *)
Definition lit (n : Z) : number := binary_normalize prec emax n 0 false.

Definition NaN : number := S754_nan.
Definition num_0 : number := Eval cbv in lit 0.
Definition num_1 : number := Eval cbv in lit 1.
Definition num_2 : number := Eval cbv in lit 2.
Definition num_neg2 : number := Eval cbv in SFopp (lit 2).
Definition num_1000 : number := Eval cbv in lit 1000.

(** [a < b] and [a > b]: false as soon as one side is NaN. *)
Definition lt (a b : number) : bool := SFltb a b.
Definition gt (a b : number) : bool := SFltb b a.
Definition le (a b : number) : bool := SFleb a b.

(** [a / b] *)
Definition div (a b : number) : number := SFdiv prec emax a b.

(** [Math.max(a, b)]: NaN when an argument is NaN, and +0 is above -0. *)
Definition Math_max (a b : number) : number :=
  match a, b with
  | S754_nan, _ | _, S754_nan => S754_nan
  | S754_zero sa, S754_zero sb => S754_zero (sa && sb)
  | _, _ => if SFltb a b then b else a
  end.

(** The content of an optional field: absent ([undefined]), [null], or a
    value of the declared type. *)
Inductive optional (A : Type) : Type :=
| undefined
| null
| value (a : A).
Arguments undefined {A}.
Arguments null {A}.
Arguments value {A} a.

(** [ToBoolean]: what [if (x)] and [!x] look at. *)
Class ToBoolean (A : Type) := to_boolean : A -> bool.

#[global] Instance ToBoolean_bool : ToBoolean bool := fun b => b.
#[global] Instance ToBoolean_string : ToBoolean string :=
  fun s => match s with EmptyString => false | String _ _ => true end.
#[global] Instance ToBoolean_number : ToBoolean number :=
  fun n => match n with
           | S754_zero _ | S754_nan => false
           | S754_infinity _ | S754_finite _ _ _ => true
           end.
(** An array is an object, so it is truthy even when it is empty. *)
#[global] Instance ToBoolean_array {A} : ToBoolean (list A) := fun _ => true.
#[global] Instance ToBoolean_optional {A} `{ToBoolean A} : ToBoolean (optional A) :=
  fun o => match o with
           | undefined | null => false
           | value a => to_boolean a
           end.

(** [ToNumber] on a field that holds a number when it holds a value. *)
Definition toNumber (o : optional number) : number :=
  match o with
  | undefined => NaN
  | null => num_0
  | value n => n
  end.

(** [o != null]: the loose comparison, which [undefined] fails too. *)
Definition neq_null {A} (o : optional A) : bool :=
  match o with
  | undefined | null => false
  | value _ => true
  end.

End JS.

Import JS.

(** ** The descriptors *)

Module ActorConfig.
Record t : Type := mk {
  x : number;
  y : number;
  width : number;
  height : number;
  img : optional string;
  box : optional bool;
  verts : optional (list number);
  z : optional number
}.

Definition set_img (c : t) (v : optional string) : t :=
  mk (x c) (y c) (width c) (height c) v (box c) (verts c) (z c).
Definition set_box (c : t) (v : optional bool) : t :=
  mk (x c) (y c) (width c) (height c) (img c) v (verts c) (z c).
Definition set_verts (c : t) (v : optional (list number)) : t :=
  mk (x c) (y c) (width c) (height c) (img c) (box c) v (z c).
Definition set_z (c : t) (v : optional number) : t :=
  mk (x c) (y c) (width c) (height c) (img c) (box c) (verts c) v.
End ActorConfig.

(** [checkActorConfig] assigns to the fields of the object it is given; the
    result is that object as the function leaves it. *)
Definition checkActorConfig (c : ActorConfig.t) : ActorConfig.t :=
  let c := if negb (to_boolean (ActorConfig.img c))
           then ActorConfig.set_img c (value EmptyString) else c in
  let c := if negb (to_boolean (ActorConfig.box c))
           then ActorConfig.set_box c (value false) else c in
  let c := if negb (to_boolean (ActorConfig.verts c))
           then ActorConfig.set_verts c null else c in
  let c := if negb (to_boolean (ActorConfig.z c))
           then ActorConfig.set_z c (value num_0) else c in
  let c := if lt (toNumber (ActorConfig.z c)) num_neg2
           then ActorConfig.set_z c (value num_neg2) else c in
  let c := if gt (toNumber (ActorConfig.z c)) num_2
           then ActorConfig.set_z c (value num_2) else c in
  c.

Module ImageConfig.
(** Modelled from the spec: [ImageConfig] is declared in [./JetLag], whose
    text is not available.  It is the image placement
    descriptor: position, dimensions, image reference and z-order.  The
    methods below read exactly the fields [x], [y], [width], [height] and
    [img] of it. *)
Record t : Type := mk {
  x : number;
  y : number;
  width : number;
  height : number;
  img : optional string;
  z : optional number
}.
End ImageConfig.

(** ** The engine, as the sequence of calls made into it *)

Inductive ActorKind : Type := Obstacle | Hero | Goodie | Enemy | Destination.

(** [PhysicsType2d.Dynamics.BodyType] *)
Inductive BodyType : Type := STATIC | KINEMATIC | DYNAMIC.

(** An object created by [new]: its identity. *)
Definition ObjRef : Type := nat.

Inductive EngineCall : Type :=
| (** [new K(stage, width, height, img, z)], which yields object [o] *)
  New (K : ActorKind) (o : ObjRef) (width height : number)
      (img : optional string) (z : optional number)
| (** [o.setPolygonPhysics(type, x, y, verts)] *)
  SetPolygonPhysics (o : ObjRef) (type : BodyType) (x y : number)
                    (verts : optional (list number))
| (** [o.setBoxPhysics(type, x, y)] *)
  SetBoxPhysics (o : ObjRef) (type : BodyType) (x y : number)
| (** [o.setCirclePhysics(type, x, y, radius)] *)
  SetCirclePhysics (o : ObjRef) (type : BodyType) (x y radius : number)
| (** [o.setCollisionsEnabled(b)] *)
  SetCollisionsEnabled (o : ObjRef) (b : bool)
| (** [stage.score.onHeroCreated()] *)
  OnHeroCreated
| (** [stage.score.onEnemyCreated()] *)
  OnEnemyCreated
| (** [stage.getWorld().addActor(o, z)] *)
  AddActor (o : ObjRef) (z : optional number)
| (** [new ParallaxLayer(x, y, width, height, speed, f1, f2, img, stage.config,
      stage.device)], which yields object [o]; [speed] is the fifth argument,
      [f1] and [f2] the two boolean arguments that follow it *)
  NewParallaxLayer (o : ObjRef) (x y width height speed : number)
                   (f1 f2 : bool) (img : optional string)
| (** [stage.getBackground().addLayer(o)] *)
  BackgroundAddLayer (o : ObjRef)
| (** [stage.getForeground().addLayer(o)] *)
  ForegroundAddLayer (o : ObjRef).

(** The stage a [WorldApi] holds: the calls made so far, oldest first, and
    the number of objects created so far. *)
Record JetLagStage : Type := mkStage {
  calls : list EngineCall;
  created : nat
}.

(** Code that runs against the stage. *)
Definition Engine (A : Type) : Type := JetLagStage -> A * JetLagStage.

Definition ret {A} (a : A) : Engine A := fun st => (a, st).

Definition bind {A B} (m : Engine A) (f : A -> Engine B) : Engine B :=
  fun st => let (a, st') := m st in f a st'.

Declare Scope engine_scope.
Delimit Scope engine_scope with engine.
Notation "x <- m ;; k" := (bind m (fun x => k))
  (at level 61, m at next level, right associativity) : engine_scope.
Notation "m ;; k" := (bind m (fun _ => k))
  (at level 61, right associativity) : engine_scope.
Local Open Scope engine_scope.

(** A call that yields nothing of interest. *)
Definition call (e : EngineCall) : Engine unit :=
  fun st => (tt, mkStage (calls st ++ [e]) (created st)).

(** A [new]: the object is fresh, and the constructor call is recorded. *)
Definition construct (e : ObjRef -> EngineCall) : Engine ObjRef :=
  fun st => let o := created st in
            (o, mkStage (calls st ++ [e o]) (S (created st))).

(** The calls that running [m] from [st] adds. *)
Definition issued {A} (m : Engine A) (st : JetLagStage) : list EngineCall :=
  skipn (List.length (calls st)) (calls (snd (m st))).

Definition result {A} (m : Engine A) (st : JetLagStage) : A := fst (m st).

(** ** [WorldApi] *)

(** Each actor-creation method yields the actor; the second component is the
    caller's descriptor as the method leaves it. *)

Definition makeObstacle (cfg : ActorConfig.t) : Engine (ObjRef * ActorConfig.t) :=
  let cfg := checkActorConfig cfg in
  o <- (if neq_null (ActorConfig.verts cfg) then
          o <- construct (fun o => New Obstacle o (ActorConfig.width cfg) (ActorConfig.height cfg) (ActorConfig.img cfg) (ActorConfig.z cfg)) ;;
          call (SetPolygonPhysics o STATIC (ActorConfig.x cfg) (ActorConfig.y cfg) (ActorConfig.verts cfg)) ;;
          ret o
        else if to_boolean (ActorConfig.box cfg) then
          o <- construct (fun o => New Obstacle o (ActorConfig.width cfg) (ActorConfig.height cfg) (ActorConfig.img cfg) (ActorConfig.z cfg)) ;;
          call (SetBoxPhysics o STATIC (ActorConfig.x cfg) (ActorConfig.y cfg)) ;;
          ret o
        else
          let radius := Math_max (ActorConfig.width cfg) (ActorConfig.height cfg) in
          o <- construct (fun o => New Obstacle o radius radius (ActorConfig.img cfg) (ActorConfig.z cfg)) ;;
          call (SetCirclePhysics o STATIC (ActorConfig.x cfg) (ActorConfig.y cfg) (div radius num_2)) ;;
          ret o) ;;
  call (AddActor o (ActorConfig.z cfg)) ;;
  ret (o, cfg).

Definition makeHero (cfg : ActorConfig.t) : Engine (ObjRef * ActorConfig.t) :=
  let cfg := checkActorConfig cfg in
  h <- (if neq_null (ActorConfig.verts cfg) then
          h <- construct (fun h => New Hero h (ActorConfig.width cfg) (ActorConfig.height cfg) (ActorConfig.img cfg) (ActorConfig.z cfg)) ;;
          call (SetPolygonPhysics h DYNAMIC (ActorConfig.x cfg) (ActorConfig.y cfg) (ActorConfig.verts cfg)) ;;
          ret h
        else if to_boolean (ActorConfig.box cfg) then
          h <- construct (fun h => New Hero h (ActorConfig.width cfg) (ActorConfig.height cfg) (ActorConfig.img cfg) (ActorConfig.z cfg)) ;;
          call (SetBoxPhysics h DYNAMIC (ActorConfig.x cfg) (ActorConfig.y cfg)) ;;
          ret h
        else
          let radius := Math_max (ActorConfig.width cfg) (ActorConfig.height cfg) in
          h <- construct (fun h => New Hero h radius radius (ActorConfig.img cfg) (ActorConfig.z cfg)) ;;
          call (SetCirclePhysics h DYNAMIC (ActorConfig.x cfg) (ActorConfig.y cfg) (div radius num_2)) ;;
          ret h) ;;
  call OnHeroCreated ;;
  call (AddActor h (value num_0)) ;;
  ret (h, cfg).

Definition makeEnemy (cfg : ActorConfig.t) : Engine (ObjRef * ActorConfig.t) :=
  let cfg := checkActorConfig cfg in
  e <- (if neq_null (ActorConfig.verts cfg) then
          e <- construct (fun e => New Enemy e (ActorConfig.width cfg) (ActorConfig.height cfg) (ActorConfig.img cfg) (ActorConfig.z cfg)) ;;
          call (SetPolygonPhysics e STATIC (ActorConfig.x cfg) (ActorConfig.y cfg) (ActorConfig.verts cfg)) ;;
          ret e
        else if to_boolean (ActorConfig.box cfg) then
          e <- construct (fun e => New Enemy e (ActorConfig.width cfg) (ActorConfig.height cfg) (ActorConfig.img cfg) (ActorConfig.z cfg)) ;;
          call (SetBoxPhysics e STATIC (ActorConfig.x cfg) (ActorConfig.y cfg)) ;;
          ret e
        else
          let radius := Math_max (ActorConfig.width cfg) (ActorConfig.height cfg) in
          e <- construct (fun e => New Enemy e radius radius (ActorConfig.img cfg) (ActorConfig.z cfg)) ;;
          call (SetCirclePhysics e STATIC (ActorConfig.x cfg) (ActorConfig.y cfg) (div radius num_2)) ;;
          ret e) ;;
  call OnEnemyCreated ;;
  call (AddActor e (value num_0)) ;;
  ret (e, cfg).

Definition makeDestination (cfg : ActorConfig.t) : Engine (ObjRef * ActorConfig.t) :=
  let cfg := checkActorConfig cfg in
  d <- (if neq_null (ActorConfig.verts cfg) then
          d <- construct (fun d => New Destination d (ActorConfig.width cfg) (ActorConfig.height cfg) (ActorConfig.img cfg) (ActorConfig.z cfg)) ;;
          call (SetPolygonPhysics d STATIC (ActorConfig.x cfg) (ActorConfig.y cfg) (ActorConfig.verts cfg)) ;;
          ret d
        else if to_boolean (ActorConfig.box cfg) then
          d <- construct (fun d => New Destination d (ActorConfig.width cfg) (ActorConfig.height cfg) (ActorConfig.img cfg) (ActorConfig.z cfg)) ;;
          call (SetBoxPhysics d STATIC (ActorConfig.x cfg) (ActorConfig.y cfg)) ;;
          ret d
        else
          let radius := Math_max (ActorConfig.width cfg) (ActorConfig.height cfg) in
          d <- construct (fun d => New Destination d radius radius (ActorConfig.img cfg) (ActorConfig.z cfg)) ;;
          call (SetCirclePhysics d STATIC (ActorConfig.x cfg) (ActorConfig.y cfg) (div radius num_2)) ;;
          ret d) ;;
  call (SetCollisionsEnabled d false) ;;
  call (AddActor d (value num_0)) ;;
  ret (d, cfg).

Definition makeGoodie (cfg : ActorConfig.t) : Engine (ObjRef * ActorConfig.t) :=
  let cfg := checkActorConfig cfg in
  g <- (if neq_null (ActorConfig.verts cfg) then
          g <- construct (fun g => New Goodie g (ActorConfig.width cfg) (ActorConfig.height cfg) (ActorConfig.img cfg) (ActorConfig.z cfg)) ;;
          call (SetPolygonPhysics g STATIC (ActorConfig.x cfg) (ActorConfig.y cfg) (ActorConfig.verts cfg)) ;;
          ret g
        else if to_boolean (ActorConfig.box cfg) then
          g <- construct (fun g => New Goodie g (ActorConfig.width cfg) (ActorConfig.height cfg) (ActorConfig.img cfg) (ActorConfig.z cfg)) ;;
          call (SetBoxPhysics g STATIC (ActorConfig.x cfg) (ActorConfig.y cfg)) ;;
          ret g
        else
          let radius := Math_max (ActorConfig.width cfg) (ActorConfig.height cfg) in
          g <- construct (fun g => New Goodie g radius radius (ActorConfig.img cfg) (ActorConfig.z cfg)) ;;
          call (SetCirclePhysics g STATIC (ActorConfig.x cfg) (ActorConfig.y cfg) (div radius num_2)) ;;
          ret g) ;;
  call (SetCollisionsEnabled g false) ;;
  call (AddActor g (value num_0)) ;;
  ret (g, cfg).

(** The actor-creation method for each kind of actor. *)
Definition make (K : ActorKind) : ActorConfig.t -> Engine (ObjRef * ActorConfig.t) :=
  match K with
  | Obstacle => makeObstacle
  | Hero => makeHero
  | Goodie => makeGoodie
  | Enemy => makeEnemy
  | Destination => makeDestination
  end.

Section Parallax.

(** [checkImageConfig] is imported from [./JetLag], whose text is not
    available: like [checkActorConfig] it works on the object it is given,
    and it is taken here as any function on descriptors. *)
Variable checkImageConfig : ImageConfig.t -> ImageConfig.t.

Definition addHorizontalBackgroundLayer (cfg : ImageConfig.t) (xSpeed : number) : Engine unit :=
  let cfg := checkImageConfig cfg in
  pl <- construct (fun pl => NewParallaxLayer pl (ImageConfig.x cfg) (ImageConfig.y cfg) (ImageConfig.width cfg) (ImageConfig.height cfg) xSpeed true false (ImageConfig.img cfg)) ;;
  call (BackgroundAddLayer pl).

Definition addVerticalBackgroundLayer (cfg : ImageConfig.t) (ySpeed : number) : Engine unit :=
  let cfg := checkImageConfig cfg in
  pl <- construct (fun pl => NewParallaxLayer pl (ImageConfig.x cfg) (ImageConfig.y cfg) (ImageConfig.width cfg) (ImageConfig.height cfg) ySpeed false false (ImageConfig.img cfg)) ;;
  call (BackgroundAddLayer pl).

Definition addHorizontalForegroundLayer (cfg : ImageConfig.t) (xSpeed : number) : Engine unit :=
  let cfg := checkImageConfig cfg in
  pl <- construct (fun pl => NewParallaxLayer pl (ImageConfig.x cfg) (ImageConfig.y cfg) (ImageConfig.width cfg) (ImageConfig.height cfg) xSpeed true false (ImageConfig.img cfg)) ;;
  call (ForegroundAddLayer pl).

Definition addHorizontalAutoBackgroundLayer (cfg : ImageConfig.t) (xSpeed : number) : Engine unit :=
  let cfg := checkImageConfig cfg in
  pl <- construct (fun pl => NewParallaxLayer pl (ImageConfig.x cfg) (ImageConfig.y cfg) (ImageConfig.width cfg) (ImageConfig.height cfg) (div xSpeed num_1000) true true (ImageConfig.img cfg)) ;;
  call (BackgroundAddLayer pl).

Definition addVerticalAutoBackgroundLayer (cfg : ImageConfig.t) (ySpeed : number) : Engine unit :=
  let cfg := checkImageConfig cfg in
  pl <- construct (fun pl => NewParallaxLayer pl (ImageConfig.x cfg) (ImageConfig.y cfg) (ImageConfig.width cfg) (ImageConfig.height cfg) (div ySpeed num_1000) false true (ImageConfig.img cfg)) ;;
  call (BackgroundAddLayer pl).

End Parallax.

(** ** [GameConfig] *)

(** The level-building functions that [GameConfig] imports from [./Chooser],
    [./Levels], [./Store], [./Help] and [./Splash]: a reference to one of
    them is its name. *)
Inductive ScreenBuilder : Type :=
| buildChooserScreen
| buildLevelScreen
| buildStoreScreen
| buildHelpScreen
| buildSplashScreen.

(** [ErrorVerbosity], of [../jetlag/Services/Console]: the member that
    [GameConfig] names. *)
Inductive ErrorVerbosity : Type := LOUD.

Module GameCfg.
(** Modelled from the spec: the interface [GameCfg] is declared in
    [../jetlag/Config], whose text is not available.  What an
    implementation supplies is: asset name lists, screen dimensions and
    builder-function references. *)
Class GameCfg (T : Type) : Type := {
  musicNames : T -> list string;
  soundNames : T -> list string;
  imageNames : T -> list string;
  defaultScreenWidth : T -> number;
  defaultScreenHeight : T -> number;
  levelBuilder : T -> ScreenBuilder;
  chooserBuilder : T -> ScreenBuilder;
  helpBuilder : T -> ScreenBuilder;
  splashBuilder : T -> ScreenBuilder;
  storeBuilder : T -> ScreenBuilder
}.
End GameCfg.

Module GameConfig.
Local Open Scope string_scope.

Record t : Type := mk {
  pixelMeterRatio : number;
  defaultScreenWidth : number;
  defaultScreenHeight : number;
  adaptToScreenSize : bool;
  canVibrate : bool;
  forceAccelerometerOff : bool;
  storageKey : string;
  verbosity : ErrorVerbosity;
  hitBoxes : bool;
  resourcePrefix : string;
  musicNames : list string;
  soundNames : list string;
  imageNames : list string;
  levelBuilder : ScreenBuilder;
  chooserBuilder : ScreenBuilder;
  helpBuilder : ScreenBuilder;
  splashBuilder : ScreenBuilder;
  storeBuilder : ScreenBuilder
}.

(** [new GameConfig()]: every field has its initializer's value. *)
Definition new : t := {|
  pixelMeterRatio := lit 100;
  defaultScreenWidth := lit 1600;
  defaultScreenHeight := lit 900;
  adaptToScreenSize := true;
  canVibrate := true;
  forceAccelerometerOff := true;
  storageKey := "com.me.my_jetlag_game.storage";
  verbosity := LOUD;
  hitBoxes := true;
  resourcePrefix := "./assets/";
  musicNames := ["tune.ogg"];
  soundNames := ["high_pitch.ogg"; "low_pitch.ogg"; "lose_sound.ogg"; "win_sound.ogg"; "slow_down.ogg"; "woo_woo_woo.ogg"; "flap_flap.ogg"];
  imageNames := [
    "green_ball.png"; "mustard_ball.png"; "red_ball.png"; "blue_ball.png"; "purple_ball.png"; "grey_ball.png";
    "left_arrow.png"; "right_arrow.png"; "back_arrow.png"; "level_tile.png"; "audio_on.png"; "audio_off.png";
    "black.png"; "red.png";
    "msg2.png"; "fade.png";
    "splash.png"; "chooser.png";
    "mid.png"; "front.png"; "back.png";
    "leg_star_1.png"; "leg_star_2.png"; "leg_star_3.png"; "leg_star_4.png"; "leg_star_5.png"; "leg_star_6.png"; "leg_star_7.png"; "leg_star_8.png";
    "flip_leg_star_1.png"; "flip_leg_star_2.png"; "flip_leg_star_3.png"; "flip_leg_star_4.png"; "flip_leg_star_5.png"; "flip_leg_star_6.png"; "flip_leg_star_7.png"; "flip_leg_star_8.png";
    "fly_star_1.png"; "fly_star_2.png";
    "star_burst_1.png"; "star_burst_2.png"; "star_burst_3.png"; "star_burst_4.png";
    "color_star_1.png"; "color_star_2.png"; "color_star_3.png"; "color_star_4.png"; "color_star_5.png"; "color_star_6.png"; "color_star_7.png"; "color_star_8.png";
    "noise.png"; "pause.png"
  ];
  levelBuilder := buildLevelScreen;
  chooserBuilder := buildChooserScreen;
  helpBuilder := buildHelpScreen;
  splashBuilder := buildSplashScreen;
  storeBuilder := buildStoreScreen
|}.

(** [class GameConfig implements GameCfg]: the members of the interface
    are the fields of the same name. *)
#[global] Instance implements_GameCfg : GameCfg.GameCfg t := {|
  GameCfg.musicNames := musicNames;
  GameCfg.soundNames := soundNames;
  GameCfg.imageNames := imageNames;
  GameCfg.defaultScreenWidth := defaultScreenWidth;
  GameCfg.defaultScreenHeight := defaultScreenHeight;
  GameCfg.levelBuilder := levelBuilder;
  GameCfg.chooserBuilder := chooserBuilder;
  GameCfg.helpBuilder := helpBuilder;
  GameCfg.splashBuilder := splashBuilder;
  GameCfg.storeBuilder := storeBuilder
|}.
End GameConfig.

(** ** Reading the calls of a run *)

(** The values [f] picks out of a sequence of calls, in order. *)
Fixpoint collect {A} (f : EngineCall -> option A) (l : list EngineCall) : list A :=
  match l with
  | [] => []
  | e :: l' => match f e with
               | Some a => a :: collect f l'
               | None => collect f l'
               end
  end.

Inductive Shape : Type := Polygon | Box | Circle.

(** The shape of the physics body that a call asks for. *)
Definition shape_of (e : EngineCall) : option Shape :=
  match e with
  | SetPolygonPhysics _ _ _ _ _ => Some Polygon
  | SetBoxPhysics _ _ _ _ => Some Box
  | SetCirclePhysics _ _ _ _ _ => Some Circle
  | _ => None
  end.

(** The body type that a physics call is given. *)
Definition body_type_of (e : EngineCall) : option BodyType :=
  match e with
  | SetPolygonPhysics _ t _ _ _ => Some t
  | SetBoxPhysics _ t _ _ => Some t
  | SetCirclePhysics _ t _ _ _ => Some t
  | _ => None
  end.

(** The actor that a constructor call creates, and its kind. *)
Definition constructed (e : EngineCall) : option (ActorKind * ObjRef) :=
  match e with
  | New K o _ _ _ _ => Some (K, o)
  | _ => None
  end.

(** The width and height that a constructor call is given. *)
Definition dimensions_of (e : EngineCall) : option (number * number) :=
  match e with
  | New _ _ w h _ _ => Some (w, h)
  | _ => None
  end.

(** The radius that a circle physics call is given. *)
Definition radius_of (e : EngineCall) : option number :=
  match e with
  | SetCirclePhysics _ _ _ _ r => Some r
  | _ => None
  end.

(** The actor and the z-order that [addActor] is given. *)
Definition added (e : EngineCall) : option (ObjRef * optional number) :=
  match e with
  | AddActor o z => Some (o, z)
  | _ => None
  end.

(** The speed that the [ParallaxLayer] constructor is given. *)
Definition speed_of (e : EngineCall) : option number :=
  match e with
  | NewParallaxLayer _ _ _ _ _ s _ _ _ => Some s
  | _ => None
  end.

(** ** What the specification speaks of *)

(** The z-order that validation leaves, from the one it finds. *)
Definition checked_z (z : optional number) : number :=
  let n := if to_boolean z then toNumber z else num_0 in
  if lt n num_neg2 then num_neg2 else if gt n num_2 then num_2 else n.

(** The shape that the precedence polygon > box > circle selects. *)
Definition selected_shape (cfg : ActorConfig.t) : Shape :=
  match ActorConfig.verts cfg with
  | value _ => Polygon
  | _ => match ActorConfig.box cfg with
         | value true => Box
         | _ => Circle
         end
  end.

(** ** Sample inputs *)

(** A stage on which nothing has happened yet. *)
Definition stage0 : JetLagStage := mkStage [] 0.

(** A descriptor at (1, 2), 4 wide and 2 high, with the given optional fields. *)
Definition descriptor (box : optional bool) (verts : optional (list number))
           (z : optional number) : ActorConfig.t :=
  ActorConfig.mk (lit 1) (lit 2) (lit 4) (lit 2) undefined box verts z.

Definition triangle : list number := [lit 0; lit 0; lit 1; lit 0; lit 0; lit 1].

(** An image descriptor for a layer that fills a 16 by 9 screen. *)
Definition backdrop : ImageConfig.t :=
  ImageConfig.mk (lit 0) (lit 0) (lit 16) (lit 9) (value "mid.png"%string) undefined.

(** ** The rest of the level: bounding boxes and tilt *)

Module Num.
(** [a - b], [a + b] and [Math.abs(a)] *)
Definition sub (a b : number) : number := SFsub prec emax a b.
Definition add (a b : number) : number := SFadd prec emax a b.
Definition abs (a : number) : number := SFabs a.
Definition num_5 : number := Eval cbv in lit 5.
Definition num_neg5 : number := Eval cbv in SFopp (lit 5).
End Num.

(** [JetLagKeys], of [../support/Interfaces]: the members that [WorldApi]
    names. *)
Inductive JetLagKeys : Type := UP | DOWN | LEFT | RIGHT.

(** What a key handler does to the accelerometer when it is run:
    [accelerometer.setX(v)] or [accelerometer.setY(v)]. *)
Inductive AccelerometerCall : Type :=
| SetX (v : number)
| SetY (v : number).

(** A key handler [() => { ... }], as the calls its body makes, in order. *)
Definition Handler : Type := list AccelerometerCall.

Inductive LevelCall : Type :=
| (** a call that an actor-creation method makes *)
  Creation (e : EngineCall)
| (** [o.setPhysics(density, elasticity, friction)] *)
  SetPhysics (o : ObjRef) (density elasticity friction : number)
| (** [stage.getWorld().setTiltMax(xGravityMax, yGravityMax)] *)
  SetTiltMax (xGravityMax yGravityMax : number)
| (** [stage.device.getKeyboard().setKeyUpHandler(key, handler)] *)
  SetKeyUpHandler (key : JetLagKeys) (handler : Handler)
| (** [stage.device.getKeyboard().setKeyDownHandler(key, handler)] *)
  SetKeyDownHandler (key : JetLagKeys) (handler : Handler).

(** The level that the other methods of [WorldApi] work on: the calls made
    so far, oldest first, the number of objects created so far, and what the
    device's accelerometer answers to [getSupported()]. *)
Record Level : Type := mkLevel {
  log : list LevelCall;
  objects : nat;
  accelerometerSupported : bool
}.

Definition InLevel (A : Type) : Type := Level -> A * Level.

Definition lret {A} (a : A) : InLevel A := fun w => (a, w).

Definition lbind {A B} (m : InLevel A) (f : A -> InLevel B) : InLevel B :=
  fun w => let (a, w') := m w in f a w'.

Declare Scope level_scope.
Delimit Scope level_scope with level.
Notation "x <- m ;; k" := (lbind m (fun x => k))
  (at level 61, m at next level, right associativity) : level_scope.
Notation "m ;; k" := (lbind m (fun _ => k))
  (at level 61, right associativity) : level_scope.
Local Open Scope level_scope.

Definition lcall (e : LevelCall) : InLevel unit :=
  fun w => (tt, mkLevel (log w ++ [e]) (objects w) (accelerometerSupported w)).

(** [stage.device.getAccelerometer().getSupported()] *)
Definition getSupported : InLevel bool :=
  fun w => (accelerometerSupported w, w).

(** An actor-creation method, run in the level: the calls it makes join the
    log of the level, in their order, and the objects it creates are counted
    with the others. *)
Definition lift {A} (m : Engine A) : InLevel A :=
  fun w => let (a, st) := m (mkStage [] (objects w)) in
           (a, mkLevel (log w ++ map Creation (calls st)) (created st)
                       (accelerometerSupported w)).

(** The calls that running [m] from [w] adds. *)
Definition logged {A} (m : InLevel A) (w : Level) : list LevelCall :=
  skipn (List.length (log w)) (log (snd (m w))).

Definition enableTilt (xGravityMax yGravityMax : number) : InLevel unit :=
  lcall (SetTiltMax xGravityMax yGravityMax) ;;
  supported <- getSupported ;;
  if negb supported then
    lcall (SetKeyUpHandler UP [SetY num_0]) ;;
    lcall (SetKeyUpHandler DOWN [SetY num_0]) ;;
    lcall (SetKeyUpHandler LEFT [SetX num_0]) ;;
    lcall (SetKeyUpHandler RIGHT [SetX num_0]) ;;
    lcall (SetKeyDownHandler UP [SetY Num.num_neg5]) ;;
    lcall (SetKeyDownHandler DOWN [SetY Num.num_5]) ;;
    lcall (SetKeyDownHandler LEFT [SetX Num.num_neg5]) ;;
    lcall (SetKeyDownHandler RIGHT [SetX Num.num_5])
  else
    lret tt.

(** The object literal [{ box: true, x: x, y: y, width: width, height:
    height, img: imgName }]: verts and z are absent. *)
Definition boxLiteral (x y width height : number) (imgName : string) : ActorConfig.t :=
  ActorConfig.mk x y width height (value imgName) (value true) undefined undefined.

Definition drawBoundingBox (x0 y0 x1 y1 : number) (imgName : string)
           (density elasticity friction : number) : InLevel unit :=
  bottom <- lift (makeObstacle (boxLiteral (Num.sub x0 num_1) y1
                                           (Num.add (Num.abs (Num.sub x0 x1)) num_2) num_1 imgName)) ;;
  lcall (SetPhysics (fst bottom) density elasticity friction) ;;
  top <- lift (makeObstacle (boxLiteral (Num.sub x0 num_1) (Num.sub y0 num_1)
                                        (Num.add (Num.abs (Num.sub x0 x1)) num_2) num_1 imgName)) ;;
  lcall (SetPhysics (fst top) density elasticity friction) ;;
  left <- lift (makeObstacle (boxLiteral (Num.sub x0 num_1) (Num.sub y0 num_1)
                                         num_1 (Num.add (Num.abs (Num.sub y0 y1)) num_2) imgName)) ;;
  lcall (SetPhysics (fst left) density elasticity friction) ;;
  right <- lift (makeObstacle (boxLiteral x1 (Num.sub y0 num_1)
                                          num_1 (Num.add (Num.abs (Num.sub y0 y1)) num_2) imgName)) ;;
  lcall (SetPhysics (fst right) density elasticity friction).

(** ** Reading the calls of a level *)

(** The calls of the actor-creation methods among the calls of a level. *)
Fixpoint creations (l : list LevelCall) : list EngineCall :=
  match l with
  | [] => []
  | Creation e :: l' => e :: creations l'
  | _ :: l' => creations l'
  end.

(** The calls of [setPhysics] among the calls of a level. *)
Fixpoint physics_settings (l : list LevelCall) : list (ObjRef * (number * number * number)) :=
  match l with
  | [] => []
  | SetPhysics o d e f :: l' => (o, (d, e, f)) :: physics_settings l'
  | _ :: l' => physics_settings l'
  end.

Definition key_eqb (a b : JetLagKeys) : bool :=
  match a, b with
  | UP, UP | DOWN, DOWN | LEFT, LEFT | RIGHT, RIGHT => true
  | _, _ => false
  end.

(** The handlers that a sequence of calls installs for the release of [k]. *)
Fixpoint up_handlers (l : list LevelCall) (k : JetLagKeys) : list Handler :=
  match l with
  | [] => []
  | SetKeyUpHandler k' h :: l' =>
      if key_eqb k k' then h :: up_handlers l' k else up_handlers l' k
  | _ :: l' => up_handlers l' k
  end.

(** The handlers that a sequence of calls installs for the press of [k]. *)
Fixpoint down_handlers (l : list LevelCall) (k : JetLagKeys) : list Handler :=
  match l with
  | [] => []
  | SetKeyDownHandler k' h :: l' =>
      if key_eqb k k' then h :: down_handlers l' k else down_handlers l' k
  | _ :: l' => down_handlers l' k
  end.

(** The image and the z-order that a constructor call is given. *)
Definition appearance_of (e : EngineCall) : option (optional string * optional number) :=
  match e with
  | New _ _ _ _ img z => Some (img, z)
  | _ => None
  end.

(** The position and the vertices that a polygon physics call is given. *)
Definition polygon_of (e : EngineCall)
  : option (number * number * optional (list number)) :=
  match e with
  | SetPolygonPhysics _ _ x y verts => Some (x, y, verts)
  | _ => None
  end.

(** The position that a physics call is given. *)
Definition position_of (e : EngineCall) : option (number * number) :=
  match e with
  | SetPolygonPhysics _ _ x y _ => Some (x, y)
  | SetBoxPhysics _ _ x y => Some (x, y)
  | SetCirclePhysics _ _ x y _ => Some (x, y)
  | _ => None
  end.

(** The object on which a physics call is made. *)
Definition receiver_of (e : EngineCall) : option ObjRef :=
  match e with
  | SetPolygonPhysics o _ _ _ _ => Some o
  | SetBoxPhysics o _ _ _ => Some o
  | SetCirclePhysics o _ _ _ _ => Some o
  | _ => None
  end.

Inductive Plane : Type := Background | Foreground.

(** The layer that a call adds, and where. *)
Definition layer_added (e : EngineCall) : option (Plane * ObjRef) :=
  match e with
  | BackgroundAddLayer o => Some (Background, o)
  | ForegroundAddLayer o => Some (Foreground, o)
  | _ => None
  end.

(** The layer that a call constructs: the object, the geometry and image it
    is given, and its two flags. *)
Definition layer_constructed (e : EngineCall)
  : option (ObjRef * (number * number * number * number) * optional string * (bool * bool)) :=
  match e with
  | NewParallaxLayer o x y w h _ f1 f2 img => Some (o, (x, y, w, h), img, (f1, f2))
  | _ => None
  end.

(** What a creation method does between the physics call and [addActor]. *)
Definition bookkeeping (K : ActorKind) (o : ObjRef) : list EngineCall :=
  match K with
  | Obstacle => []
  | Hero => [OnHeroCreated]
  | Enemy => [OnEnemyCreated]
  | Destination | Goodie => [SetCollisionsEnabled o false]
  end.

(** The descriptor with width and height exchanged. *)
Definition transpose (c : ActorConfig.t) : ActorConfig.t :=
  ActorConfig.mk (ActorConfig.x c) (ActorConfig.y c)
                 (ActorConfig.height c) (ActorConfig.width c)
                 (ActorConfig.img c) (ActorConfig.box c)
                 (ActorConfig.verts c) (ActorConfig.z c).

(** A level on which nothing has happened yet. *)
Definition level0 (supported : bool) : Level := mkLevel [] 0 supported.

(** ** Errors *)

(** The methods once more, with what can go wrong in them: the descriptor is
    a reference, which may be undefined or null or point to a frozen object,
    and a call into the engine may throw.  The module is strict-mode code, so
    that a write to a field of a frozen object throws a TypeError, as does a
    read of a field of undefined or null. *)
Module Strict.

Inductive Error : Type :=
| (** thrown by the code of [WorldApi] itself *)
  TypeError
| (** thrown by a call into the engine *)
  EngineError.

Inductive Outcome (A : Type) : Type :=
| Returned (a : A)
| Thrown (e : Error).
Arguments Returned {A} a.
Arguments Thrown {A} e.

Definition obind {A B} (m : Outcome A) (f : A -> Outcome B) : Outcome B :=
  match m with
  | Returned a => f a
  | Thrown e => Thrown e
  end.

Declare Scope outcome_scope.
Delimit Scope outcome_scope with outcome.
Notation "x <- m ;; k" := (obind m (fun x => k))
  (at level 61, m at next level, right associativity) : outcome_scope.

(** An object that holds a descriptor: its fields, and whether it is frozen. *)
Record Object : Type := mkObject {
  frozen : bool;
  fields : ActorConfig.t
}.

(** What a method is passed for its descriptor. *)
Definition Descriptor : Type := optional Object.

(** [c.f = v] *)
Definition assign (c : Object) (set : ActorConfig.t -> ActorConfig.t) : Outcome Object :=
  if frozen c then Thrown TypeError
  else Returned (mkObject (frozen c) (set (fields c))).

Definition checkActorConfig (c : Descriptor) : Outcome Object :=
  match c with
  | undefined | null => Thrown TypeError
  | value c =>
    (c <- (if negb (to_boolean (ActorConfig.img (fields c)))
           then assign c (fun r => ActorConfig.set_img r (value EmptyString))
           else Returned c) ;;
     c <- (if negb (to_boolean (ActorConfig.box (fields c)))
           then assign c (fun r => ActorConfig.set_box r (value false))
           else Returned c) ;;
     c <- (if negb (to_boolean (ActorConfig.verts (fields c)))
           then assign c (fun r => ActorConfig.set_verts r null)
           else Returned c) ;;
     c <- (if negb (to_boolean (ActorConfig.z (fields c)))
           then assign c (fun r => ActorConfig.set_z r (value num_0))
           else Returned c) ;;
     c <- (if lt (toNumber (ActorConfig.z (fields c))) num_neg2
           then assign c (fun r => ActorConfig.set_z r (value num_neg2))
           else Returned c) ;;
     c <- (if gt (toNumber (ActorConfig.z (fields c))) num_2
           then assign c (fun r => ActorConfig.set_z r (value num_2))
           else Returned c) ;;
     Returned c)%outcome
  end.

(** Code that runs against the stage and may throw; what has been done to
    the stage before a throw stays done. *)
Definition M (A : Type) : Type := JetLagStage -> Outcome A * JetLagStage.

Definition ret {A} (a : A) : M A := fun st => (Returned a, st).

Definition bind {A B} (m : M A) (f : A -> M B) : M B :=
  fun st => match m st with
            | (Returned a, st') => f a st'
            | (Thrown e, st') => (Thrown e, st')
            end.

(** A step that does not touch the stage. *)
Definition step {A} (r : Outcome A) : M A := fun st => (r, st).

Declare Scope strict_scope.
Delimit Scope strict_scope with strict.
Notation "x <- m ;; k" := (bind m (fun x => k))
  (at level 61, m at next level, right associativity) : strict_scope.
Notation "m ;; k" := (bind m (fun _ => k))
  (at level 61, right associativity) : strict_scope.
Local Open Scope strict_scope.

Section Engine.

(** The engine is opaque: [throws e] tells whether it throws when it is
    called as [e]. *)
Variable throws : EngineCall -> bool.

Definition call (e : EngineCall) : M unit :=
  fun st => (if throws e then Thrown EngineError else Returned tt,
             mkStage (calls st ++ [e]) (created st)).

Definition construct (e : ObjRef -> EngineCall) : M ObjRef :=
  fun st => let o := created st in
            (if throws (e o) then Thrown EngineError else Returned o,
             mkStage (calls st ++ [e o]) (S (created st))).

Definition makeObstacle (cfg : Descriptor) : M (ObjRef * Object) :=
  cfg <- step (checkActorConfig cfg) ;;
  let c := fields cfg in
  o <- (if neq_null (ActorConfig.verts c) then
          o <- construct (fun o => New Obstacle o (ActorConfig.width c) (ActorConfig.height c) (ActorConfig.img c) (ActorConfig.z c)) ;;
          call (SetPolygonPhysics o STATIC (ActorConfig.x c) (ActorConfig.y c) (ActorConfig.verts c)) ;;
          ret o
        else if to_boolean (ActorConfig.box c) then
          o <- construct (fun o => New Obstacle o (ActorConfig.width c) (ActorConfig.height c) (ActorConfig.img c) (ActorConfig.z c)) ;;
          call (SetBoxPhysics o STATIC (ActorConfig.x c) (ActorConfig.y c)) ;;
          ret o
        else
          let radius := Math_max (ActorConfig.width c) (ActorConfig.height c) in
          o <- construct (fun o => New Obstacle o radius radius (ActorConfig.img c) (ActorConfig.z c)) ;;
          call (SetCirclePhysics o STATIC (ActorConfig.x c) (ActorConfig.y c) (div radius num_2)) ;;
          ret o) ;;
  call (AddActor o (ActorConfig.z c)) ;;
  ret (o, cfg).

Definition makeHero (cfg : Descriptor) : M (ObjRef * Object) :=
  cfg <- step (checkActorConfig cfg) ;;
  let c := fields cfg in
  h <- (if neq_null (ActorConfig.verts c) then
          h <- construct (fun h => New Hero h (ActorConfig.width c) (ActorConfig.height c) (ActorConfig.img c) (ActorConfig.z c)) ;;
          call (SetPolygonPhysics h DYNAMIC (ActorConfig.x c) (ActorConfig.y c) (ActorConfig.verts c)) ;;
          ret h
        else if to_boolean (ActorConfig.box c) then
          h <- construct (fun h => New Hero h (ActorConfig.width c) (ActorConfig.height c) (ActorConfig.img c) (ActorConfig.z c)) ;;
          call (SetBoxPhysics h DYNAMIC (ActorConfig.x c) (ActorConfig.y c)) ;;
          ret h
        else
          let radius := Math_max (ActorConfig.width c) (ActorConfig.height c) in
          h <- construct (fun h => New Hero h radius radius (ActorConfig.img c) (ActorConfig.z c)) ;;
          call (SetCirclePhysics h DYNAMIC (ActorConfig.x c) (ActorConfig.y c) (div radius num_2)) ;;
          ret h) ;;
  call OnHeroCreated ;;
  call (AddActor h (value num_0)) ;;
  ret (h, cfg).

Definition makeEnemy (cfg : Descriptor) : M (ObjRef * Object) :=
  cfg <- step (checkActorConfig cfg) ;;
  let c := fields cfg in
  e <- (if neq_null (ActorConfig.verts c) then
          e <- construct (fun e => New Enemy e (ActorConfig.width c) (ActorConfig.height c) (ActorConfig.img c) (ActorConfig.z c)) ;;
          call (SetPolygonPhysics e STATIC (ActorConfig.x c) (ActorConfig.y c) (ActorConfig.verts c)) ;;
          ret e
        else if to_boolean (ActorConfig.box c) then
          e <- construct (fun e => New Enemy e (ActorConfig.width c) (ActorConfig.height c) (ActorConfig.img c) (ActorConfig.z c)) ;;
          call (SetBoxPhysics e STATIC (ActorConfig.x c) (ActorConfig.y c)) ;;
          ret e
        else
          let radius := Math_max (ActorConfig.width c) (ActorConfig.height c) in
          e <- construct (fun e => New Enemy e radius radius (ActorConfig.img c) (ActorConfig.z c)) ;;
          call (SetCirclePhysics e STATIC (ActorConfig.x c) (ActorConfig.y c) (div radius num_2)) ;;
          ret e) ;;
  call OnEnemyCreated ;;
  call (AddActor e (value num_0)) ;;
  ret (e, cfg).

Definition makeDestination (cfg : Descriptor) : M (ObjRef * Object) :=
  cfg <- step (checkActorConfig cfg) ;;
  let c := fields cfg in
  d <- (if neq_null (ActorConfig.verts c) then
          d <- construct (fun d => New Destination d (ActorConfig.width c) (ActorConfig.height c) (ActorConfig.img c) (ActorConfig.z c)) ;;
          call (SetPolygonPhysics d STATIC (ActorConfig.x c) (ActorConfig.y c) (ActorConfig.verts c)) ;;
          ret d
        else if to_boolean (ActorConfig.box c) then
          d <- construct (fun d => New Destination d (ActorConfig.width c) (ActorConfig.height c) (ActorConfig.img c) (ActorConfig.z c)) ;;
          call (SetBoxPhysics d STATIC (ActorConfig.x c) (ActorConfig.y c)) ;;
          ret d
        else
          let radius := Math_max (ActorConfig.width c) (ActorConfig.height c) in
          d <- construct (fun d => New Destination d radius radius (ActorConfig.img c) (ActorConfig.z c)) ;;
          call (SetCirclePhysics d STATIC (ActorConfig.x c) (ActorConfig.y c) (div radius num_2)) ;;
          ret d) ;;
  call (SetCollisionsEnabled d false) ;;
  call (AddActor d (value num_0)) ;;
  ret (d, cfg).

Definition makeGoodie (cfg : Descriptor) : M (ObjRef * Object) :=
  cfg <- step (checkActorConfig cfg) ;;
  let c := fields cfg in
  g <- (if neq_null (ActorConfig.verts c) then
          g <- construct (fun g => New Goodie g (ActorConfig.width c) (ActorConfig.height c) (ActorConfig.img c) (ActorConfig.z c)) ;;
          call (SetPolygonPhysics g STATIC (ActorConfig.x c) (ActorConfig.y c) (ActorConfig.verts c)) ;;
          ret g
        else if to_boolean (ActorConfig.box c) then
          g <- construct (fun g => New Goodie g (ActorConfig.width c) (ActorConfig.height c) (ActorConfig.img c) (ActorConfig.z c)) ;;
          call (SetBoxPhysics g STATIC (ActorConfig.x c) (ActorConfig.y c)) ;;
          ret g
        else
          let radius := Math_max (ActorConfig.width c) (ActorConfig.height c) in
          g <- construct (fun g => New Goodie g radius radius (ActorConfig.img c) (ActorConfig.z c)) ;;
          call (SetCirclePhysics g STATIC (ActorConfig.x c) (ActorConfig.y c) (div radius num_2)) ;;
          ret g) ;;
  call (SetCollisionsEnabled g false) ;;
  call (AddActor g (value num_0)) ;;
  ret (g, cfg).

(** The actor-creation method for each kind of actor. *)
Definition make (K : ActorKind) : Descriptor -> M (ObjRef * Object) :=
  match K with
  | Obstacle => makeObstacle
  | Hero => makeHero
  | Goodie => makeGoodie
  | Enemy => makeEnemy
  | Destination => makeDestination
  end.

End Engine.

(** The descriptors to which validation assigns nothing: every optional
    field is truthy, and z is neither below -2 nor above 2. *)
Definition untouched (c : ActorConfig.t) : bool :=
  to_boolean (ActorConfig.img c) && to_boolean (ActorConfig.box c) &&
  to_boolean (ActorConfig.verts c) && to_boolean (ActorConfig.z c) &&
  negb (lt (toNumber (ActorConfig.z c)) num_neg2) &&
  negb (gt (toNumber (ActorConfig.z c)) num_2).

(** An engine none of whose calls throws. *)
Definition quiet : EngineCall -> bool := fun _ => false.

Definition frozen_object (cfg : ActorConfig.t) : Descriptor := value (mkObject true cfg).

End Strict.

(** * Properties *)

(** ** Comparison of numbers *)

Lemma SFcompare_antisym (a b : number) :
  SFcompare b a = option_map CompOpp (SFcompare a b).
Proof.
  destruct a as [[]|[]| |[] ma ea], b as [[]|[]| |[] mb eb]; simpl; try reflexivity;
    rewrite (Z.compare_antisym ea eb); destruct (ea ?= eb); simpl; try reflexivity;
    pose proof (Pos.compare_cont_antisym ma mb Eq) as H; simpl in H;
    rewrite <- H; reflexivity.
Qed.

Lemma lt_false_le (a b : number) :
  a <> NaN -> b <> NaN -> lt a b = false -> le b a = true.
Proof.
  unfold lt, le, SFltb, SFleb. intros Ha Hb.
  rewrite (SFcompare_antisym a b).
  destruct (SFcompare a b) as [[]|] eqn:E; simpl; try reflexivity; try discriminate.
  intros _. unfold NaN in *. destruct a, b; simpl in E; try discriminate; congruence.
Qed.

Lemma truthy_not_NaN (n : number) : to_boolean n = true -> n <> NaN.
Proof. unfold NaN. destruct n; simpl; intros H; discriminate. Qed.

(** ** What [checkActorConfig] does to each field *)

Ltac split_ifs :=
  repeat match goal with
         | |- context [if ?b then _ else _] => destruct b eqn:?
         end.

Ltac fields :=
  cbn [negb toNumber
       ActorConfig.x ActorConfig.y ActorConfig.width ActorConfig.height
       ActorConfig.img ActorConfig.box ActorConfig.verts ActorConfig.z
       ActorConfig.set_img ActorConfig.set_box ActorConfig.set_verts
       ActorConfig.set_z] in *.

(** The four tests on [!c.f], in the order in which the code makes them. *)
Ltac check_cases c :=
  let x := fresh "x" in let y := fresh "y" in
  let w := fresh "w" in let h := fresh "h" in
  let i := fresh "i" in let b := fresh "b" in
  let v := fresh "v" in let z := fresh "z" in
  destruct c as [x y w h i b v z];
  unfold checkActorConfig; cbv zeta; fields;
  destruct (to_boolean i) eqn:?; fields;
  destruct (to_boolean b) eqn:?; fields;
  destruct (to_boolean v) eqn:?; fields;
  destruct (to_boolean z) eqn:?; fields.

Lemma check_mandatory (c : ActorConfig.t) :
  ActorConfig.x (checkActorConfig c) = ActorConfig.x c /\
  ActorConfig.y (checkActorConfig c) = ActorConfig.y c /\
  ActorConfig.width (checkActorConfig c) = ActorConfig.width c /\
  ActorConfig.height (checkActorConfig c) = ActorConfig.height c.
Proof. check_cases c; split_ifs; fields; repeat split. Qed.

Lemma check_img (c : ActorConfig.t) :
  ActorConfig.img (checkActorConfig c) =
  if to_boolean (ActorConfig.img c) then ActorConfig.img c else value EmptyString.
Proof. check_cases c; split_ifs; fields; reflexivity. Qed.

Lemma check_box (c : ActorConfig.t) :
  ActorConfig.box (checkActorConfig c) =
  if to_boolean (ActorConfig.box c) then ActorConfig.box c else value false.
Proof. check_cases c; split_ifs; fields; reflexivity. Qed.

Lemma check_verts (c : ActorConfig.t) :
  ActorConfig.verts (checkActorConfig c) =
  if to_boolean (ActorConfig.verts c) then ActorConfig.verts c else null.
Proof. check_cases c; split_ifs; fields; reflexivity. Qed.

Lemma check_z (c : ActorConfig.t) :
  ActorConfig.z (checkActorConfig c) = value (checked_z (ActorConfig.z c)).
Proof.
  unfold checked_z. check_cases c.
  all: try match goal with
           | z : optional number |- _ => destruct z as [| |n]; try discriminate; fields
           end.
  all: try (destruct (lt n num_neg2); fields; [reflexivity|];
            destruct (gt n num_2); reflexivity).
  all: reflexivity.
Qed.

(** ** Running a method *)

Lemma skipn_own_length {A} (l l' : list A) : skipn (List.length l) (l ++ l') = l'.
Proof. induction l as [|a l IH]; simpl; [reflexivity | exact IH]. Qed.

(** Runs an actor-creation method in each of its three branches. *)
Ltac run_make K cfg :=
  destruct K;
  unfold make, makeObstacle, makeHero, makeGoodie, makeEnemy, makeDestination;
  cbv zeta;
  (destruct (neq_null (ActorConfig.verts (checkActorConfig cfg))) eqn:V;
   [| destruct (to_boolean (ActorConfig.box (checkActorConfig cfg))) eqn:B]);
  unfold issued, result, bind, construct, call, ret;
  cbn [fst snd calls created];
  rewrite <- ?app_assoc; cbn [app]; rewrite ?skipn_own_length;
  cbn [collect shape_of body_type_of constructed dimensions_of radius_of added].

(** The branch taken, read on the descriptor as the caller passes it. *)
Lemma verts_branch (cfg : ActorConfig.t) :
  neq_null (ActorConfig.verts (checkActorConfig cfg)) = neq_null (ActorConfig.verts cfg).
Proof. rewrite check_verts. destruct (ActorConfig.verts cfg); reflexivity. Qed.

Lemma box_branch (cfg : ActorConfig.t) :
  to_boolean (ActorConfig.box (checkActorConfig cfg)) = to_boolean (ActorConfig.box cfg).
Proof. rewrite check_box. destruct (ActorConfig.box cfg) as [| |[]]; reflexivity. Qed.

(** C2: in each of makeObstacle, makeHero, makeEnemy, makeDestination and
    makeGoodie exactly one physics body is asked for, and its shape follows
    the precedence polygon > box > circle: a polygon when verts is non-null
    (whatever box is), otherwise a box when box is true, otherwise a circle. *)
Theorem shape_selection_precedence (K : ActorKind) (cfg : ActorConfig.t) (st : JetLagStage) :
  collect shape_of (issued (make K cfg) st) = [selected_shape cfg].
Proof.
  unfold selected_shape.
  run_make K cfg; rewrite verts_branch in V; try rewrite box_branch in B;
    destruct (ActorConfig.verts cfg); try discriminate;
    try (destruct (ActorConfig.box cfg) as [| |[]]; try discriminate);
    reflexivity.
Qed.

Example polygon_wins_over_box :
  issued (makeEnemy (descriptor (value true) (value triangle) undefined)) stage0 =
  [New Enemy 0%nat (lit 4) (lit 2) (value EmptyString) (value num_0);
   SetPolygonPhysics 0%nat STATIC (lit 1) (lit 2) (value triangle);
   OnEnemyCreated;
   AddActor 0%nat (value num_0)].
Proof. reflexivity. Qed.

Example circle_by_default :
  issued (makeHero (descriptor undefined undefined (value (lit 7)))) stage0 =
  [New Hero 0%nat (lit 4) (lit 4) (value EmptyString) (value num_2);
   SetCirclePhysics 0%nat DYNAMIC (lit 1) (lit 2) (lit 2);
   OnHeroCreated;
   AddActor 0%nat (value num_0)].
Proof. reflexivity. Qed.

Example empty_polygon_is_a_polygon :
  collect shape_of (issued (makeObstacle (descriptor (value true) (value []) undefined)) stage0)
  = [Polygon].
Proof. reflexivity. Qed.

Example box_when_no_vertices :
  issued (makeObstacle (descriptor (value true) null (value (SFopp (lit 1))))) stage0 =
  [New Obstacle 0%nat (lit 4) (lit 2) (value EmptyString) (value (SFopp (lit 1)));
   SetBoxPhysics 0%nat STATIC (lit 1) (lit 2);
   AddActor 0%nat (value (SFopp (lit 1)))].
Proof. reflexivity. Qed.

Example complete_descriptor_is_kept :
  let cfg := ActorConfig.mk (lit 1) (lit 2) (lit 4) (lit 2) (value "hero.png"%string)
                            (value true) (value triangle) (value num_1) in
  checkActorConfig cfg = cfg.
Proof. reflexivity. Qed.

Example z_at_the_ends :
  map (fun z => ActorConfig.z (checkActorConfig (descriptor undefined undefined z)))
      [value NaN; value (S754_infinity true); value (S754_infinity false);
       value (S754_zero true); null; value num_neg2; value num_2]
  = map value [num_0; num_neg2; num_2; num_0; num_0; num_neg2; num_2].
Proof. reflexivity. Qed.

(** ** The z-order after validation *)

Lemma checked_z_in_range (o : optional number) :
  le num_neg2 (checked_z o) = true /\ le (checked_z o) num_2 = true.
Proof.
  unfold checked_z. destruct (to_boolean o) eqn:T.
  - destruct o as [| |n]; try discriminate. cbn [toNumber].
    pose proof (truthy_not_NaN n T) as Hn.
    destruct (lt n num_neg2) eqn:L; [split; reflexivity|].
    destruct (gt n num_2) eqn:G; [split; reflexivity|].
    split; apply lt_false_le; trivial; discriminate.
  - split; reflexivity.
Qed.

Lemma make_descriptor (K : ActorKind) (cfg : ActorConfig.t) (st : JetLagStage) :
  snd (result (make K cfg) st) = checkActorConfig cfg.
Proof. run_make K cfg; reflexivity. Qed.

(** C1: whatever descriptor an actor-creation method is given, after
    validation its z lies in [-2, 2]: a z below -2 has become -2, a z above 2
    has become 2, and a missing z has become 0. *)
Theorem z_clamped_after_validation (K : ActorKind) (cfg : ActorConfig.t) (st : JetLagStage) :
  snd (result (make K cfg) st) = checkActorConfig cfg /\
  (exists n, ActorConfig.z (checkActorConfig cfg) = value n /\
             le num_neg2 n = true /\ le n num_2 = true) /\
  (forall n, ActorConfig.z cfg = value n -> lt n num_neg2 = true ->
             ActorConfig.z (checkActorConfig cfg) = value num_neg2) /\
  (forall n, ActorConfig.z cfg = value n -> gt n num_2 = true ->
             ActorConfig.z (checkActorConfig cfg) = value num_2) /\
  (ActorConfig.z cfg = undefined ->
   ActorConfig.z (checkActorConfig cfg) = value num_0).
Proof.
  split; [apply make_descriptor|]. rewrite check_z. repeat split.
  - exists (checked_z (ActorConfig.z cfg)). split; [reflexivity|]. apply checked_z_in_range.
  - intros n Hz L. rewrite Hz. unfold checked_z. cbn [to_boolean ToBoolean_optional toNumber].
    assert (T : to_boolean n = true)
      by (destruct n as [[]|[]| |[] m e]; try discriminate; reflexivity).
    rewrite T, L. reflexivity.
  - intros n Hz G. rewrite Hz. unfold checked_z. cbn [to_boolean ToBoolean_optional toNumber].
    assert (T : to_boolean n = true)
      by (destruct n as [[]|[]| |[] m e]; try discriminate; reflexivity).
    rewrite T, G.
    destruct (lt n num_neg2) eqn:L; [|reflexivity].
    exfalso. destruct n as [[]|[]| |[] m e]; discriminate.
  - intros Hz. rewrite Hz. reflexivity.
Qed.

Lemma z_clamped_after_validation_witness :
  ActorConfig.z (checkActorConfig (descriptor undefined undefined (value (lit (-3))))) = value num_neg2 /\
  ActorConfig.z (checkActorConfig (descriptor undefined undefined (value (lit 7)))) = value num_2 /\
  ActorConfig.z (checkActorConfig (descriptor undefined undefined undefined)) = value num_0.
Proof.
  split; [|split].
  - apply (proj1 (proj2 (proj2 (z_clamped_after_validation Hero
             (descriptor undefined undefined (value (lit (-3)))) stage0))))
      with (n := lit (-3)); reflexivity.
  - apply (proj1 (proj2 (proj2 (proj2 (z_clamped_after_validation Goodie
             (descriptor undefined undefined (value (lit 7))) stage0)))))
      with (n := lit 7); reflexivity.
  - apply (proj2 (proj2 (proj2 (proj2 (z_clamped_after_validation Obstacle
             (descriptor undefined undefined undefined) stage0))))).
    reflexivity.
Defined.

(** ** Validation *)









(** C5: validation leaves the mandatory fields x, y, width and height as
    they are; only img, box, verts and z can differ afterwards. *)
Theorem validation_keeps_mandatory_fields (cfg : ActorConfig.t) :
  ActorConfig.x (checkActorConfig cfg) = ActorConfig.x cfg /\
  ActorConfig.y (checkActorConfig cfg) = ActorConfig.y cfg /\
  ActorConfig.width (checkActorConfig cfg) = ActorConfig.width cfg /\
  ActorConfig.height (checkActorConfig cfg) = ActorConfig.height cfg /\
  exists i b v z,
    checkActorConfig cfg =
    ActorConfig.mk (ActorConfig.x cfg) (ActorConfig.y cfg)
                   (ActorConfig.width cfg) (ActorConfig.height cfg) i b v z.
Proof.
  destruct (check_mandatory cfg) as (Hx & Hy & Hw & Hh).
  repeat (split; [assumption|]).
  rewrite <- Hx, <- Hy, <- Hw, <- Hh.
  destruct (checkActorConfig cfg) as [x y w h i b v z].
  exists i, b, v, z. reflexivity.
Qed.

(** ** What a creation method asks of the engine *)

(** C6: each of makeHero, makeEnemy, makeObstacle, makeGoodie and
    makeDestination constructs exactly one actor, of its own kind, adds that
    actor, and no other, to the world with one call of addActor, and returns
    it; the run creates no other object. *)
Theorem make_creates_one_actor (K : ActorKind) (cfg : ActorConfig.t) (st : JetLagStage) :
  collect constructed (issued (make K cfg) st) = [(K, fst (result (make K cfg) st))] /\
  map fst (collect added (issued (make K cfg) st)) = [fst (result (make K cfg) st)] /\
  fst (result (make K cfg) st) = created st /\
  created (snd (make K cfg st)) = S (created st).
Proof. run_make K cfg; repeat split. Qed.

(** C9: makeObstacle gives addActor the validated z of the descriptor, and
    it alone: makeHero, makeEnemy, makeDestination and makeGoodie give it the
    constant 0 whatever the descriptor's z is (so that, for a descriptor
    whose z is 2, the obstacle is added at 2 and the hero at 0). *)
Theorem addActor_z_order (K : ActorKind) (cfg : ActorConfig.t) (st : JetLagStage) :
  map snd (collect added (issued (make K cfg) st)) =
  [match K with
   | Obstacle => ActorConfig.z (checkActorConfig cfg)
   | Hero | Enemy | Destination | Goodie => value num_0
   end] /\
  map snd (collect added (issued (makeObstacle (descriptor undefined undefined (value num_2))) stage0))
  = [value num_2] /\
  map snd (collect added (issued (makeHero (descriptor undefined undefined (value num_2))) stage0))
  = [value num_0].
Proof. split; [run_make K cfg; reflexivity | split; reflexivity]. Qed.

(** C10: in every shape branch, makeHero asks for a physics body of type
    DYNAMIC, and makeObstacle, makeEnemy, makeDestination and makeGoodie for
    one of type STATIC. *)
Theorem body_type_by_kind (K : ActorKind) (cfg : ActorConfig.t) (st : JetLagStage) :
  collect body_type_of (issued (make K cfg) st) =
  [match K with
   | Hero => DYNAMIC
   | Obstacle | Enemy | Destination | Goodie => STATIC
   end].
Proof. run_make K cfg; reflexivity. Qed.

(** C8: in the circle branch (after validation verts is null and box is
    false) the actor is constructed with width and height both
    Math.max(cfg.width, cfg.height), and the radius of the physics circle is
    that maximum divided by 2: the larger of width and height is the diameter
    of the circle. *)
Theorem circle_diameter_is_larger_side (K : ActorKind) (cfg : ActorConfig.t) (st : JetLagStage) :
  ActorConfig.verts (checkActorConfig cfg) = null ->
  ActorConfig.box (checkActorConfig cfg) = value false ->
  collect dimensions_of (issued (make K cfg) st) =
  [(Math_max (ActorConfig.width cfg) (ActorConfig.height cfg),
    Math_max (ActorConfig.width cfg) (ActorConfig.height cfg))] /\
  collect radius_of (issued (make K cfg) st) =
  [div (Math_max (ActorConfig.width cfg) (ActorConfig.height cfg)) num_2] /\
  collect shape_of (issued (make K cfg) st) = [Circle].
Proof.
  intros Hv Hb. destruct (check_mandatory cfg) as (_ & _ & Hw & Hh).
  run_make K cfg; rewrite ?Hv, ?Hb in *; try discriminate;
    rewrite Hw, Hh; repeat split.
Qed.

Lemma circle_diameter_is_larger_side_witness :
  collect dimensions_of (issued (make Goodie (descriptor undefined undefined undefined)) stage0)
  = [(lit 4, lit 4)] /\
  collect radius_of (issued (make Goodie (descriptor undefined undefined undefined)) stage0)
  = [lit 2].
Proof.
  destruct (circle_diameter_is_larger_side Goodie (descriptor undefined undefined undefined)
              stage0 eq_refl eq_refl) as (Hd & Hr & _).
  split; [exact Hd | exact Hr].
Defined.

(** ** Parallax layers *)

Example background_layer_calls :
  issued (addVerticalBackgroundLayer (fun c => c) backdrop num_1) stage0 =
  [NewParallaxLayer 0%nat (lit 0) (lit 0) (lit 16) (lit 9) num_1 false false (value "mid.png"%string);
   BackgroundAddLayer 0%nat].
Proof. reflexivity. Qed.

(** C3 as it is stated fails: addHorizontalAutoBackgroundLayer, called with
    speed 1, does not give the ParallaxLayer constructor the speed 1 (it
    gives it 1 / 1000; the check of the descriptor plays no part in this). *)
Lemma auto_layer_speed_is_not_the_argument :
  collect speed_of
          (issued (addHorizontalAutoBackgroundLayer (fun c => c) backdrop num_1) stage0)
  <> [num_1].
Proof. vm_compute. discriminate. Qed.

(** C3, amended: addHorizontalBackgroundLayer, addVerticalBackgroundLayer and
    addHorizontalForegroundLayer each construct one ParallaxLayer and give
    its constructor the speed argument s as it is;
    addHorizontalAutoBackgroundLayer and addVerticalAutoBackgroundLayer each
    construct one ParallaxLayer and give its constructor s / 1000. *)
Theorem parallax_layer_speed (checkImageConfig : ImageConfig.t -> ImageConfig.t)
        (cfg : ImageConfig.t) (s : number) (st : JetLagStage) :
  collect speed_of (issued (addHorizontalBackgroundLayer checkImageConfig cfg s) st) = [s] /\
  collect speed_of (issued (addVerticalBackgroundLayer checkImageConfig cfg s) st) = [s] /\
  collect speed_of (issued (addHorizontalForegroundLayer checkImageConfig cfg s) st) = [s] /\
  collect speed_of (issued (addHorizontalAutoBackgroundLayer checkImageConfig cfg s) st)
  = [div s num_1000] /\
  collect speed_of (issued (addVerticalAutoBackgroundLayer checkImageConfig cfg s) st)
  = [div s num_1000].
Proof.
  unfold addHorizontalBackgroundLayer, addVerticalBackgroundLayer,
    addHorizontalForegroundLayer, addHorizontalAutoBackgroundLayer,
    addVerticalAutoBackgroundLayer, issued, bind, construct, call.
  cbn [fst snd calls created]. rewrite <- !app_assoc. cbn [app].
  rewrite !skipn_own_length. repeat split.
Qed.

(** ** The game configuration *)

(** C7: GameConfig implements GameCfg, and through that interface it
    supplies the asset name lists (one music file, seven sounds, fifty-three
    images), the screen dimensions 1600 by 900, and the five builder
    functions. *)
Theorem GameConfig_supplies_GameCfg :
  GameCfg.musicNames GameConfig.new = ["tune.ogg"%string] /\
  GameCfg.soundNames GameConfig.new =
  ["high_pitch.ogg"; "low_pitch.ogg"; "lose_sound.ogg"; "win_sound.ogg";
   "slow_down.ogg"; "woo_woo_woo.ogg"; "flap_flap.ogg"]%string /\
  List.length (GameCfg.imageNames GameConfig.new) = 53%nat /\
  hd_error (GameCfg.imageNames GameConfig.new) = Some "green_ball.png"%string /\
  last (GameCfg.imageNames GameConfig.new) EmptyString = "pause.png"%string /\
  GameCfg.defaultScreenWidth GameConfig.new = lit 1600 /\
  GameCfg.defaultScreenHeight GameConfig.new = lit 900 /\
  GameCfg.levelBuilder GameConfig.new = buildLevelScreen /\
  GameCfg.chooserBuilder GameConfig.new = buildChooserScreen /\
  GameCfg.helpBuilder GameConfig.new = buildHelpScreen /\
  GameCfg.splashBuilder GameConfig.new = buildSplashScreen /\
  GameCfg.storeBuilder GameConfig.new = buildStoreScreen.
Proof. repeat split. Qed.

(** * Further properties of the code *)

(** ** Validation, once more *)

Lemma le_true_lt_false (a b : number) : le a b = true -> lt b a = false.
Proof.
  unfold le, lt, SFleb, SFltb. rewrite (SFcompare_antisym a b).
  destruct (SFcompare a b) as [[]|]; simpl; intros H; try reflexivity; discriminate.
Qed.

Lemma checked_z_fixed (n : number) :
  to_boolean n = true -> le num_neg2 n = true -> le n num_2 = true ->
  checked_z (value n) = n.
Proof.
  intros T L G. unfold checked_z. cbn [to_boolean ToBoolean_optional toNumber].
  rewrite T. rewrite (le_true_lt_false _ _ L).
  change (gt n num_2) with (lt num_2 n). rewrite (le_true_lt_false _ _ G). reflexivity.
Qed.

(** What validation leaves is 0, -2, 2 or a truthy number: never -0 or NaN. *)
Lemma checked_z_cases (o : optional number) :
  checked_z o = num_0 \/ checked_z o = num_neg2 \/ checked_z o = num_2 \/
  to_boolean (checked_z o) = true.
Proof.
  unfold checked_z. destruct (to_boolean o) eqn:T.
  - destruct o as [| |n]; try discriminate. cbn [toNumber].
    destruct (lt n num_neg2); [tauto|]. destruct (gt n num_2); tauto.
  - left. reflexivity.
Qed.

Lemma checked_z_idempotent (o : optional number) :
  checked_z (value (checked_z o)) = checked_z o.
Proof.
  destruct (checked_z_in_range o) as [L G].
  destruct (checked_z_cases o) as [E|[E|[E|T]]]; try (rewrite E; reflexivity).
  apply checked_z_fixed; assumption.
Qed.

Lemma ActorConfig_ext (c d : ActorConfig.t) :
  ActorConfig.x c = ActorConfig.x d -> ActorConfig.y c = ActorConfig.y d ->
  ActorConfig.width c = ActorConfig.width d -> ActorConfig.height c = ActorConfig.height d ->
  ActorConfig.img c = ActorConfig.img d -> ActorConfig.box c = ActorConfig.box d ->
  ActorConfig.verts c = ActorConfig.verts d -> ActorConfig.z c = ActorConfig.z d ->
  c = d.
Proof. destruct c, d; simpl; intros; subst; reflexivity. Qed.

(** X1: validating a validated descriptor changes nothing. *)
Theorem checkActorConfig_idempotent (c : ActorConfig.t) :
  checkActorConfig (checkActorConfig c) = checkActorConfig c.
Proof.
  destruct (check_mandatory (checkActorConfig c)) as (Hx & Hy & Hw & Hh).
  apply ActorConfig_ext; trivial.
  - rewrite check_img. rewrite (check_img c).
    destruct (to_boolean (ActorConfig.img c)) eqn:T; [rewrite T|]; reflexivity.
  - rewrite check_box. rewrite (check_box c).
    destruct (to_boolean (ActorConfig.box c)) eqn:T; [rewrite T|]; reflexivity.
  - rewrite check_verts. rewrite (check_verts c).
    destruct (to_boolean (ActorConfig.verts c)) eqn:T; [rewrite T|]; reflexivity.
  - rewrite check_z. rewrite (check_z c). f_equal. apply checked_z_idempotent.
Qed.

(** The calls of a creation method depend on the stage through the number
    of objects created only. *)
Lemma make_history_free (K : ActorKind) (cfg : ActorConfig.t) (st : JetLagStage) :
  make K cfg st =
  (fst (make K cfg (mkStage [] (created st))),
   mkStage (calls st ++ calls (snd (make K cfg (mkStage [] (created st)))))
           (created (snd (make K cfg (mkStage [] (created st)))))).
Proof.
  destruct K;
    unfold make, makeObstacle, makeHero, makeGoodie, makeEnemy, makeDestination;
    cbv zeta;
    (destruct (neq_null (ActorConfig.verts (checkActorConfig cfg)));
     [| destruct (to_boolean (ActorConfig.box (checkActorConfig cfg)))]);
    unfold bind, construct, call, ret; cbn [fst snd calls created app];
    rewrite <- ?app_assoc; reflexivity.
Qed.

(** X2: a descriptor can be used again.  A creation method leaves the
    caller's descriptor validated, and whatever method is given that
    descriptor afterwards makes the calls, and leaves the descriptor, that it
    would have made and left with the descriptor as it first was. *)
Theorem descriptor_can_be_reused (K K' : ActorKind) (cfg : ActorConfig.t)
        (st st' : JetLagStage) :
  make K' (snd (result (make K cfg) st)) st' = make K' cfg st'.
Proof.
  rewrite make_descriptor.
  destruct K';
    unfold make, makeObstacle, makeHero, makeGoodie, makeEnemy, makeDestination;
    cbv zeta; rewrite checkActorConfig_idempotent; reflexivity.
Qed.

(** ** What the engine is given *)

Lemma constructor_appearance (K : ActorKind) (cfg : ActorConfig.t) (st : JetLagStage) :
  collect appearance_of (issued (make K cfg) st) =
  [(ActorConfig.img (checkActorConfig cfg), ActorConfig.z (checkActorConfig cfg))].
Proof. run_make K cfg; reflexivity. Qed.

(** X3: whatever the descriptor, the constructor of the actor is given an
    image name that is a string and a z that is a number in [-2, 2]: the
    caller's image name when there is one, the empty string otherwise. *)
Theorem constructor_gets_string_and_bounded_z (K : ActorKind) (cfg : ActorConfig.t)
        (st : JetLagStage) :
  exists s n,
    collect appearance_of (issued (make K cfg) st) = [(value s, value n)] /\
    le num_neg2 n = true /\ le n num_2 = true /\
    match ActorConfig.img cfg with
    | value s0 => s = s0
    | undefined | null => s = EmptyString
    end.
Proof.
  rewrite constructor_appearance, check_img, check_z.
  destruct (checked_z_in_range (ActorConfig.z cfg)) as [L G].
  destruct (ActorConfig.img cfg) as [| |[|a s0]]; cbn;
    eexists; eexists; (split; [reflexivity|]); repeat split; assumption.
Qed.

(** X4: the order of the calls.  A creation method first constructs the
    actor, then gives that actor its physics body, of the selected shape,
    then does what is particular to the kind (a hero or an enemy is reported
    to the score, a destination or a goodie has its collisions disabled, an
    obstacle nothing), and adds the actor to the world last. *)
Theorem creation_call_order (K : ActorKind) (cfg : ActorConfig.t) (st : JetLagStage) :
  exists ctor phys zo,
    issued (make K cfg) st =
    ctor :: phys :: bookkeeping K (fst (result (make K cfg) st))
         ++ [AddActor (fst (result (make K cfg) st)) zo] /\
    constructed ctor = Some (K, fst (result (make K cfg) st)) /\
    receiver_of phys = Some (fst (result (make K cfg) st)) /\
    shape_of phys = Some (selected_shape cfg).
Proof.
  unfold selected_shape.
  run_make K cfg; rewrite verts_branch in V; try rewrite box_branch in B;
    do 3 eexists; (split; [reflexivity|]); cbn [constructed receiver_of shape_of];
    (split; [reflexivity|]); (split; [reflexivity|]);
    destruct (ActorConfig.verts cfg); try discriminate;
    try (destruct (ActorConfig.box cfg) as [| |[]]; try discriminate);
    reflexivity.
Qed.

(** X5: outside the circle branch the actor is constructed with the width
    and the height of the descriptor as they are: the larger side plays no
    part for a polygon or a box. *)
Theorem polygon_and_box_keep_dimensions (K : ActorKind) (cfg : ActorConfig.t)
        (st : JetLagStage) :
  selected_shape cfg <> Circle ->
  collect dimensions_of (issued (make K cfg) st) =
  [(ActorConfig.width cfg, ActorConfig.height cfg)].
Proof.
  intros H. destruct (check_mandatory cfg) as (_ & _ & Hw & Hh).
  unfold selected_shape in H.
  run_make K cfg; rewrite verts_branch in V; try rewrite box_branch in B;
    rewrite ?Hw, ?Hh;
    try reflexivity;
    exfalso; apply H;
    destruct (ActorConfig.verts cfg); try discriminate;
    destruct (ActorConfig.box cfg) as [| |[]]; try discriminate; reflexivity.
Qed.

Lemma polygon_and_box_keep_dimensions_witness :
  collect dimensions_of
          (issued (make Destination (descriptor (value true) undefined undefined)) stage0)
  = [(lit 4, lit 2)].
Proof.
  apply (polygon_and_box_keep_dimensions Destination
           (descriptor (value true) undefined undefined) stage0).
  discriminate.
Defined.

(** X6: a polygon is given the position of the descriptor and the vertex
    array of the caller as it is, whatever its length (the empty array and an
    array of more than sixteen coordinates included) and whatever box is. *)
Theorem polygon_gets_vertices_unchanged (K : ActorKind) (cfg : ActorConfig.t)
        (st : JetLagStage) (vs : list number) :
  ActorConfig.verts cfg = value vs ->
  collect polygon_of (issued (make K cfg) st) =
  [(ActorConfig.x cfg, ActorConfig.y cfg, value vs)].
Proof.
  intros H. pose proof (check_verts cfg) as EV.
  destruct (check_mandatory cfg) as (Hx & Hy & _ & _).
  rewrite H in EV. cbn in EV.
  run_make K cfg; rewrite verts_branch, H in V; try discriminate;
    cbn [collect polygon_of]; rewrite Hx, Hy, EV; reflexivity.
Qed.

Lemma polygon_gets_vertices_unchanged_witness :
  collect polygon_of
          (issued (make Hero (descriptor (value true) (value []) undefined)) stage0)
  = [(lit 1, lit 2, value [])].
Proof.
  apply (polygon_gets_vertices_unchanged Hero
           (descriptor (value true) (value []) undefined) stage0 []).
  reflexivity.
Defined.

(** X7: validation does not round.  A z that is a number other than 0 and
    NaN and lies in [-2, 2] is kept as it is, whole or not, and this is the
    z-order at which makeObstacle adds the obstacle. *)
Theorem in_range_z_is_kept (cfg : ActorConfig.t) (st : JetLagStage) (n : number) :
  ActorConfig.z cfg = value n ->
  to_boolean n = true -> le num_neg2 n = true -> le n num_2 = true ->
  ActorConfig.z (checkActorConfig cfg) = value n /\
  map snd (collect added (issued (makeObstacle cfg) st)) = [value n].
Proof.
  intros Hz T L G.
  assert (E : ActorConfig.z (checkActorConfig cfg) = value n)
    by (rewrite check_z, Hz; f_equal; apply checked_z_fixed; assumption).
  split; [exact E|].
  assert (H : forall K, K = Obstacle ->
                        map snd (collect added (issued (make K cfg) st)) = [value n])
    by (intros K HK; run_make K cfg; try discriminate HK; rewrite E; reflexivity).
  exact (H Obstacle eq_refl).
Qed.

Lemma in_range_z_is_kept_witness :
  ActorConfig.z (checkActorConfig (descriptor undefined undefined (value (div (lit 3) num_2))))
  = value (div (lit 3) num_2) /\
  map snd (collect added
             (issued (makeObstacle (descriptor undefined undefined (value (div (lit 3) num_2))))
                     stage0))
  = [value (div (lit 3) num_2)].
Proof.
  apply (in_range_z_is_kept (descriptor undefined undefined (value (div (lit 3) num_2)))
           stage0 (div (lit 3) num_2)); reflexivity.
Defined.

(** ** The circle branch *)

Lemma SFcompare_refl (a : number) : a <> NaN -> SFcompare a a = Some Eq.
Proof.
  unfold NaN. destruct a as [[]|[]| |[] m e]; simpl; intros H; try reflexivity;
    try congruence; rewrite Z.compare_refl, Pos.compare_cont_refl; reflexivity.
Qed.

Lemma le_refl (a : number) : a <> NaN -> le a a = true.
Proof. intros H. unfold le, SFleb. rewrite (SFcompare_refl a H). reflexivity. Qed.

Lemma lt_le (a b : number) : lt a b = true -> le a b = true.
Proof.
  unfold lt, le, SFltb, SFleb. destruct (SFcompare a b) as [[]|]; trivial; discriminate.
Qed.

Lemma SFcompare_finite_Eq (s s' : bool) (m m' : positive) (e e' : Z) :
  SFcompare (S754_finite s m e) (S754_finite s' m' e') = Some Eq ->
  S754_finite s m e = S754_finite s' m' e'.
Proof.
  destruct s, s'; simpl; try discriminate;
    destruct (e ?= e') eqn:E; try discriminate;
    apply Z.compare_eq in E; subst e';
    destruct (Pos.compare_cont Eq m m') eqn:M; try discriminate;
    apply Pos.compare_eq in M; subst m'; reflexivity.
Qed.

(** Two numbers that are not both zeros compare, and compare equal only
    when they are the same. *)
Definition told_apart (a b : number) : Prop :=
  match SFcompare a b with
  | Some Eq => a = b
  | Some _ => True
  | None => False
  end.

Lemma pick_larger_comm (a b : number) :
  told_apart a b ->
  (if SFltb a b then b else a) = (if SFltb b a then a else b).
Proof.
  unfold told_apart, SFltb. rewrite (SFcompare_antisym a b).
  destruct (SFcompare a b) as [[]|]; simpl; intros H; try reflexivity;
    [exact H | contradiction].
Qed.

Lemma Math_max_comm (a b : number) : Math_max a b = Math_max b a.
Proof.
  destruct a as [sa|sa| |sa ma ea], b as [sb|sb| |sb mb eb]; try reflexivity;
    try (cbn [Math_max]; apply pick_larger_comm; unfold told_apart;
         first [ destruct sa, sb; exact I
               | destruct sa; exact I
               | destruct sb; exact I
               | destruct sa, sb; reflexivity ]).
  - cbn [Math_max]. rewrite andb_comm. reflexivity.
  - cbn [Math_max]. apply pick_larger_comm. unfold told_apart.
    destruct (SFcompare (S754_finite sa ma ea) (S754_finite sb mb eb)) as [[]|] eqn:E;
      try exact I; [apply SFcompare_finite_Eq; exact E | discriminate E].
Qed.

Lemma Math_max_is_an_argument (a b : number) : Math_max a b = a \/ Math_max a b = b.
Proof.
  destruct a as [sa|sa| |sa ma ea], b as [sb|sb| |sb mb eb]; cbn [Math_max]; auto;
    try (match goal with |- context [if ?c then _ else _] => destruct c end; auto).
  destruct sa; cbn; auto.
Qed.

Lemma Math_max_upper_bound (a b : number) :
  a <> NaN -> b <> NaN ->
  le a (Math_max a b) = true /\ le b (Math_max a b) = true.
Proof.
  intros Ha Hb.
  assert (H : (if SFltb a b then b else a) = Math_max a b \/
              exists sa sb, a = S754_zero sa /\ b = S754_zero sb).
  { unfold NaN in *.
    destruct a as [sa|sa| |sa ma ea], b as [sb|sb| |sb mb eb]; try congruence;
      try (left; reflexivity).
    right. eauto. }
  destruct H as [H|(sa & sb & -> & ->)].
  - rewrite <- H. destruct (SFltb a b) eqn:L.
    + split; [apply lt_le; exact L | apply le_refl; exact Hb].
    + split; [apply le_refl; exact Ha | apply lt_false_le; assumption].
  - split; reflexivity.
Qed.

Lemma Math_max_NaN (a b : number) : a = NaN \/ b = NaN -> Math_max a b = NaN.
Proof. intros [-> | ->]; [reflexivity | destruct a; reflexivity]. Qed.

Lemma check_transpose (c : ActorConfig.t) :
  checkActorConfig (transpose c) = transpose (checkActorConfig c).
Proof.
  destruct (check_mandatory c) as (Hx & Hy & Hw & Hh).
  destruct (check_mandatory (transpose c)) as (Hx' & Hy' & Hw' & Hh').
  apply ActorConfig_ext; cbn [transpose ActorConfig.x ActorConfig.y ActorConfig.width
    ActorConfig.height ActorConfig.img ActorConfig.box ActorConfig.verts ActorConfig.z]
    in *; try congruence.
  - rewrite check_img, (check_img c). reflexivity.
  - rewrite check_box, (check_box c). reflexivity.
  - rewrite check_verts, (check_verts c). reflexivity.
  - rewrite check_z, (check_z c). reflexivity.
Qed.

(** What the circle branch asks for, from the larger side [M]. *)
Lemma circle_branch_calls (K : ActorKind) (cfg : ActorConfig.t) (st : JetLagStage) :
  selected_shape cfg = Circle ->
  collect dimensions_of (issued (make K cfg) st) =
  [(Math_max (ActorConfig.width cfg) (ActorConfig.height cfg),
    Math_max (ActorConfig.width cfg) (ActorConfig.height cfg))] /\
  collect radius_of (issued (make K cfg) st) =
  [div (Math_max (ActorConfig.width cfg) (ActorConfig.height cfg)) num_2].
Proof.
  intros H. destruct (check_mandatory cfg) as (_ & _ & Hw & Hh).
  unfold selected_shape in H.
  run_make K cfg; rewrite verts_branch in V; try rewrite box_branch in B;
    rewrite ?Hw, ?Hh; try (split; reflexivity);
    exfalso;
    destruct (ActorConfig.verts cfg); try discriminate;
    destruct (ActorConfig.box cfg) as [| |[]]; discriminate.
Qed.

(** X8: a circle does not tell width from height.  When the circle branch
    is taken, exchanging the width and the height of the descriptor changes
    none of the calls that a creation method makes. *)
Theorem circle_ignores_orientation (K : ActorKind) (cfg : ActorConfig.t) (st : JetLagStage) :
  selected_shape cfg = Circle ->
  issued (make K (transpose cfg)) st = issued (make K cfg) st.
Proof.
  intros H.
  assert (V : neq_null (ActorConfig.verts (checkActorConfig cfg)) = false).
  { rewrite verts_branch. unfold selected_shape in H.
    destruct (ActorConfig.verts cfg); [reflexivity | reflexivity | discriminate]. }
  assert (B : to_boolean (ActorConfig.box (checkActorConfig cfg)) = false).
  { rewrite box_branch. unfold selected_shape in H.
    destruct (ActorConfig.verts cfg); try discriminate;
      destruct (ActorConfig.box cfg) as [| |[]]; try discriminate; reflexivity. }
  destruct K;
    unfold make, makeObstacle, makeHero, makeGoodie, makeEnemy, makeDestination;
    cbv zeta; rewrite check_transpose;
    cbn [transpose ActorConfig.x ActorConfig.y ActorConfig.width ActorConfig.height
         ActorConfig.img ActorConfig.box ActorConfig.verts ActorConfig.z];
    rewrite V, B;
    rewrite (Math_max_comm (ActorConfig.height (checkActorConfig cfg)));
    reflexivity.
Qed.

Lemma circle_ignores_orientation_witness :
  issued (make Enemy (transpose (descriptor undefined undefined undefined))) stage0 =
  issued (make Enemy (descriptor undefined undefined undefined)) stage0.
Proof.
  apply (circle_ignores_orientation Enemy (descriptor undefined undefined undefined) stage0).
  reflexivity.
Defined.

(** X9: when the circle branch is taken and neither width nor height is
    NaN, the side of the actor is one of the two, and neither is above it. *)
Theorem circle_side_is_the_larger (K : ActorKind) (cfg : ActorConfig.t) (st : JetLagStage) :
  selected_shape cfg = Circle ->
  ActorConfig.width cfg <> NaN -> ActorConfig.height cfg <> NaN ->
  exists side,
    collect dimensions_of (issued (make K cfg) st) = [(side, side)] /\
    (side = ActorConfig.width cfg \/ side = ActorConfig.height cfg) /\
    le (ActorConfig.width cfg) side = true /\
    le (ActorConfig.height cfg) side = true.
Proof.
  intros H Hw Hh. destruct (circle_branch_calls K cfg st H) as [D _].
  exists (Math_max (ActorConfig.width cfg) (ActorConfig.height cfg)).
  split; [exact D|]. split; [apply Math_max_is_an_argument|].
  apply Math_max_upper_bound; assumption.
Qed.

Lemma circle_side_is_the_larger_witness :
  exists side,
    collect dimensions_of (issued (make Hero (descriptor undefined undefined undefined)) stage0)
    = [(side, side)] /\
    (side = lit 4 \/ side = lit 2) /\
    le (lit 4) side = true /\ le (lit 2) side = true.
Proof.
  apply (circle_side_is_the_larger Hero (descriptor undefined undefined undefined) stage0);
    [reflexivity | discriminate | discriminate].
Defined.

(** X10: the mandatory fields are not validated.  When the circle branch is
    taken and the width or the height of the descriptor is NaN, the actor is
    constructed NaN wide and NaN high, and its physics circle is given the
    radius NaN. *)
Theorem circle_of_NaN_side (K : ActorKind) (cfg : ActorConfig.t) (st : JetLagStage) :
  selected_shape cfg = Circle ->
  ActorConfig.width cfg = NaN \/ ActorConfig.height cfg = NaN ->
  collect dimensions_of (issued (make K cfg) st) = [(NaN, NaN)] /\
  collect radius_of (issued (make K cfg) st) = [NaN].
Proof.
  intros H HN. destruct (circle_branch_calls K cfg st H) as [D R].
  rewrite D, R, (Math_max_NaN _ _ HN). split; reflexivity.
Qed.

Lemma circle_of_NaN_side_witness :
  let cfg := ActorConfig.mk (lit 1) (lit 2) NaN (lit 2) undefined undefined undefined undefined in
  collect dimensions_of (issued (make Goodie cfg) stage0) = [(NaN, NaN)] /\
  collect radius_of (issued (make Goodie cfg) stage0) = [NaN].
Proof.
  intros cfg. apply (circle_of_NaN_side Goodie cfg stage0); [reflexivity | left; reflexivity].
Defined.

(** ** Bounding boxes *)

Lemma makeObstacle_boxLiteral (x y w h : number) (imgName : string) (st : JetLagStage) :
  makeObstacle (boxLiteral x y w h imgName) st =
  ((created st,
    ActorConfig.mk x y w h (value imgName) (value true) null (value num_0)),
   mkStage (calls st ++ [New Obstacle (created st) w h (value imgName) (value num_0);
                         SetBoxPhysics (created st) STATIC x y;
                         AddActor (created st) (value num_0)])
           (S (created st))).
Proof.
  unfold makeObstacle, boxLiteral, bind, construct, call, ret.
  destruct imgName; cbn; rewrite <- !app_assoc; reflexivity.
Qed.

Lemma lift_makeObstacle_boxLiteral (x y w h : number) (imgName : string) (l : Level) :
  lift (makeObstacle (boxLiteral x y w h imgName)) l =
  ((objects l,
    ActorConfig.mk x y w h (value imgName) (value true) null (value num_0)),
   mkLevel (log l ++ [Creation (New Obstacle (objects l) w h (value imgName) (value num_0));
                      Creation (SetBoxPhysics (objects l) STATIC x y);
                      Creation (AddActor (objects l) (value num_0))])
           (S (objects l)) (accelerometerSupported l)).
Proof. unfold lift. rewrite makeObstacle_boxLiteral. reflexivity. Qed.

(** The calls of [drawBoundingBox], all of them. *)
Lemma drawBoundingBox_log (x0 y0 x1 y1 : number) (imgName : string)
      (density elasticity friction : number) (l : Level) :
  let o := objects l in
  let img := value imgName in
  let across := Num.add (Num.abs (Num.sub x0 x1)) num_2 in
  let along := Num.add (Num.abs (Num.sub y0 y1)) num_2 in
  logged (drawBoundingBox x0 y0 x1 y1 imgName density elasticity friction) l =
  [Creation (New Obstacle o across num_1 img (value num_0));
   Creation (SetBoxPhysics o STATIC (Num.sub x0 num_1) y1);
   Creation (AddActor o (value num_0));
   SetPhysics o density elasticity friction;
   Creation (New Obstacle (S o) across num_1 img (value num_0));
   Creation (SetBoxPhysics (S o) STATIC (Num.sub x0 num_1) (Num.sub y0 num_1));
   Creation (AddActor (S o) (value num_0));
   SetPhysics (S o) density elasticity friction;
   Creation (New Obstacle (S (S o)) num_1 along img (value num_0));
   Creation (SetBoxPhysics (S (S o)) STATIC (Num.sub x0 num_1) (Num.sub y0 num_1));
   Creation (AddActor (S (S o)) (value num_0));
   SetPhysics (S (S o)) density elasticity friction;
   Creation (New Obstacle (S (S (S o))) num_1 along img (value num_0));
   Creation (SetBoxPhysics (S (S (S o))) STATIC x1 (Num.sub y0 num_1));
   Creation (AddActor (S (S (S o))) (value num_0));
   SetPhysics (S (S (S o))) density elasticity friction].
Proof.
  intros o img across along. subst o img across along.
  unfold logged, drawBoundingBox, lbind, lcall.
  repeat (rewrite lift_makeObstacle_boxLiteral; cbn [fst snd log objects accelerometerSupported]).
  rewrite <- !app_assoc. cbn [app]. apply skipn_own_length.
Qed.

(** X11: whatever its arguments, [drawBoundingBox] makes exactly four
    actors, all obstacles, each with a box for its physics body, of type
    STATIC, each added to the world at z-order 0; and each is given the
    density, the elasticity and the friction of the call, in the order in
    which the four were made. *)
Theorem bounding_box_is_four_static_boxes (x0 y0 x1 y1 : number) (imgName : string)
        (density elasticity friction : number) (l : Level) :
  let made := logged (drawBoundingBox x0 y0 x1 y1 imgName density elasticity friction) l in
  let o := objects l in
  collect constructed (creations made) =
  [(Obstacle, o); (Obstacle, S o); (Obstacle, S (S o)); (Obstacle, S (S (S o)))] /\
  collect shape_of (creations made) = [Box; Box; Box; Box] /\
  collect body_type_of (creations made) = [STATIC; STATIC; STATIC; STATIC] /\
  collect added (creations made) =
  [(o, value num_0); (S o, value num_0); (S (S o), value num_0); (S (S (S o)), value num_0)] /\
  physics_settings made =
  [(o, (density, elasticity, friction)); (S o, (density, elasticity, friction));
   (S (S o), (density, elasticity, friction)); (S (S (S o)), (density, elasticity, friction))] /\
  objects (snd (drawBoundingBox x0 y0 x1 y1 imgName density elasticity friction l)) =
  S (S (S (S o))).
Proof.
  intros made o. subst made. rewrite drawBoundingBox_log.
  repeat (split; [reflexivity|]).
  unfold drawBoundingBox, lbind, lcall.
  repeat (rewrite lift_makeObstacle_boxLiteral; cbn [fst snd log objects accelerometerSupported]).
  reflexivity.
Qed.

(** X12: the walls of the bounding box.  The bottom and the top wall are 1
    high and |x0 - x1| + 2 wide, the left and the right wall are 1 wide and
    |y0 - y1| + 2 high; the top and the left wall are placed at the same
    point (x0 - 1, y0 - 1), the bottom wall at (x0 - 1, y1) and the right
    wall at (x1, y0 - 1). *)
Theorem bounding_box_walls (x0 y0 x1 y1 : number) (imgName : string)
        (density elasticity friction : number) (l : Level) :
  let made := logged (drawBoundingBox x0 y0 x1 y1 imgName density elasticity friction) l in
  let across := Num.add (Num.abs (Num.sub x0 x1)) num_2 in
  let along := Num.add (Num.abs (Num.sub y0 y1)) num_2 in
  collect dimensions_of (creations made) =
  [(across, num_1); (across, num_1); (num_1, along); (num_1, along)] /\
  collect position_of (creations made) =
  [(Num.sub x0 num_1, y1); (Num.sub x0 num_1, Num.sub y0 num_1);
   (Num.sub x0 num_1, Num.sub y0 num_1); (x1, Num.sub y0 num_1)].
Proof.
  intros made across along. subst made. rewrite drawBoundingBox_log.
  split; reflexivity.
Qed.

Lemma SFabs_binary_round (s s' : bool) (m : positive) (e : Z) :
  SFabs (binary_round prec emax s m e) = SFabs (binary_round prec emax s' m e).
Proof.
  unfold binary_round. destruct (shl_align m e _) as [mz ez].
  unfold binary_round_aux.
  destruct (shr_fexp prec emax (Z.pos mz) ez loc_Exact) as [mrs' e'].
  destruct (shr_fexp prec emax _ e' loc_Exact) as [mrs'' e''].
  destruct (shr_m mrs''); [reflexivity | | reflexivity].
  destruct (e'' <=? emax - prec); reflexivity.
Qed.

Lemma SFabs_binary_normalize_opp (m e : Z) :
  SFabs (binary_normalize prec emax (- m) e false) =
  SFabs (binary_normalize prec emax m e false).
Proof. destruct m; simpl; [reflexivity | | ]; apply SFabs_binary_round. Qed.

(** |a - b| = |b - a|, rounding included. *)
Lemma abs_sub_comm (a b : number) : Num.abs (Num.sub a b) = Num.abs (Num.sub b a).
Proof.
  unfold Num.abs, Num.sub.
  destruct a as [sa|sa| |sa ma ea], b as [sb|sb| |sb mb eb];
    try reflexivity; try (destruct sa, sb; reflexivity);
    try (destruct sa; reflexivity); try (destruct sb; reflexivity).
  unfold SFsub. cbv zeta. rewrite (Z.min_comm eb ea).
  rewrite <- SFabs_binary_normalize_opp. f_equal. f_equal. lia.
Qed.

(** X13: the sizes of the four walls do not depend on which corner is
    given first: with (x1, y1) and (x0, y0) exchanged, the walls are as wide
    and as high as before. *)
Theorem bounding_box_sizes_ignore_corner_order (x0 y0 x1 y1 : number) (imgName : string)
        (density elasticity friction : number) (l : Level) :
  collect dimensions_of
          (creations (logged (drawBoundingBox x1 y1 x0 y0 imgName density elasticity friction) l))
  = collect dimensions_of
            (creations (logged (drawBoundingBox x0 y0 x1 y1 imgName density elasticity friction) l)).
Proof.
  rewrite !drawBoundingBox_log. cbv zeta. cbn [creations collect dimensions_of].
  rewrite (abs_sub_comm x1 x0), (abs_sub_comm y1 y0). reflexivity.
Qed.

Example unit_square_box :
  collect dimensions_of
          (creations (logged (drawBoundingBox (lit 0) (lit 0) (lit 16) (lit 9)
                                              "red.png" num_1 num_0 num_1) (level0 true)))
  = [(lit 18, lit 1); (lit 18, lit 1); (lit 1, lit 11); (lit 1, lit 11)].
Proof. reflexivity. Qed.

(** ** Tilt *)

(** X14: on a device whose accelerometer is supported, [enableTilt] sets
    the tilt maxima and installs no key handler. *)
Theorem enableTilt_with_accelerometer (xGravityMax yGravityMax : number) (l : Level) :
  accelerometerSupported l = true ->
  logged (enableTilt xGravityMax yGravityMax) l = [SetTiltMax xGravityMax yGravityMax].
Proof.
  intros H. unfold logged, enableTilt, lbind, lcall, getSupported, lret.
  cbn [fst snd log objects accelerometerSupported]. rewrite H.
  cbn [negb snd log]. apply skipn_own_length.
Qed.

Lemma enableTilt_with_accelerometer_witness :
  logged (enableTilt (lit 10) (lit 10)) (level0 true) = [SetTiltMax (lit 10) (lit 10)].
Proof. apply (enableTilt_with_accelerometer (lit 10) (lit 10) (level0 true)). reflexivity. Defined.

(** X15: on a device whose accelerometer is not supported, [enableTilt]
    sets the tilt maxima first and then installs, for each of the four arrow
    keys, exactly one handler for its press and exactly one for its release.
    The press of UP or DOWN sets the Y tilt to -5 or 5, the press of LEFT or
    RIGHT sets the X tilt to -5 or 5, whatever the maxima are; and the
    release of a key sets to 0 the axis that its press sets. *)
Theorem enableTilt_simulates_tilt_with_arrows (xGravityMax yGravityMax : number) (l : Level) :
  accelerometerSupported l = false ->
  hd_error (logged (enableTilt xGravityMax yGravityMax) l)
  = Some (SetTiltMax xGravityMax yGravityMax) /\
  List.length (logged (enableTilt xGravityMax yGravityMax) l) = 9%nat /\
  forall k : JetLagKeys,
    down_handlers (logged (enableTilt xGravityMax yGravityMax) l) k =
    [match k with
     | UP => [SetY Num.num_neg5]
     | DOWN => [SetY Num.num_5]
     | LEFT => [SetX Num.num_neg5]
     | RIGHT => [SetX Num.num_5]
     end] /\
    up_handlers (logged (enableTilt xGravityMax yGravityMax) l) k =
    [match k with
     | UP | DOWN => [SetY num_0]
     | LEFT | RIGHT => [SetX num_0]
     end].
Proof.
  intros H.
  assert (E : logged (enableTilt xGravityMax yGravityMax) l =
              [SetTiltMax xGravityMax yGravityMax;
               SetKeyUpHandler UP [SetY num_0]; SetKeyUpHandler DOWN [SetY num_0];
               SetKeyUpHandler LEFT [SetX num_0]; SetKeyUpHandler RIGHT [SetX num_0];
               SetKeyDownHandler UP [SetY Num.num_neg5]; SetKeyDownHandler DOWN [SetY Num.num_5];
               SetKeyDownHandler LEFT [SetX Num.num_neg5]; SetKeyDownHandler RIGHT [SetX Num.num_5]]).
  { unfold logged, enableTilt, lbind, lcall, getSupported, lret.
    cbn [fst snd log objects accelerometerSupported]. rewrite H.
    cbn [negb fst snd log objects accelerometerSupported].
    rewrite <- !app_assoc. cbn [app]. apply skipn_own_length. }
  rewrite E. split; [reflexivity|]. split; [reflexivity|].
  intros k. destruct k; split; reflexivity.
Qed.

Lemma enableTilt_simulates_tilt_with_arrows_witness :
  down_handlers (logged (enableTilt (lit 10) (lit 10)) (level0 false)) LEFT
  = [[SetX Num.num_neg5]] /\
  up_handlers (logged (enableTilt (lit 10) (lit 10)) (level0 false)) LEFT
  = [[SetX num_0]].
Proof.
  exact (proj2 (proj2 (enableTilt_simulates_tilt_with_arrows (lit 10) (lit 10) (level0 false)
                         eq_refl)) LEFT).
Defined.

(** ** Parallax layers, once more *)

(** X16: each of the five layer methods constructs exactly one layer, with
    the position, the size and the image of the checked descriptor, and adds
    that layer, once: addHorizontalForegroundLayer to the foreground, the
    four others to the background.  The first flag of the layer is true for
    the horizontal methods and false for the vertical ones, the second is
    true for the two auto methods only; so that the foreground method
    constructs its layer exactly as addHorizontalBackgroundLayer does. *)
Theorem layer_methods_add_one_layer (checkImageConfig : ImageConfig.t -> ImageConfig.t)
        (cfg : ImageConfig.t) (s : number) (st : JetLagStage) :
  let c := checkImageConfig cfg in
  let o := created st in
  let layer f1 f2 :=
    [(o, (ImageConfig.x c, ImageConfig.y c, ImageConfig.width c, ImageConfig.height c),
      ImageConfig.img c, (f1, f2))] in
  (collect layer_constructed (issued (addHorizontalBackgroundLayer checkImageConfig cfg s) st)
   = layer true false /\
   collect layer_added (issued (addHorizontalBackgroundLayer checkImageConfig cfg s) st)
   = [(Background, o)]) /\
  (collect layer_constructed (issued (addVerticalBackgroundLayer checkImageConfig cfg s) st)
   = layer false false /\
   collect layer_added (issued (addVerticalBackgroundLayer checkImageConfig cfg s) st)
   = [(Background, o)]) /\
  (collect layer_constructed (issued (addHorizontalForegroundLayer checkImageConfig cfg s) st)
   = layer true false /\
   collect layer_added (issued (addHorizontalForegroundLayer checkImageConfig cfg s) st)
   = [(Foreground, o)]) /\
  (collect layer_constructed (issued (addHorizontalAutoBackgroundLayer checkImageConfig cfg s) st)
   = layer true true /\
   collect layer_added (issued (addHorizontalAutoBackgroundLayer checkImageConfig cfg s) st)
   = [(Background, o)]) /\
  (collect layer_constructed (issued (addVerticalAutoBackgroundLayer checkImageConfig cfg s) st)
   = layer false true /\
   collect layer_added (issued (addVerticalAutoBackgroundLayer checkImageConfig cfg s) st)
   = [(Background, o)]).
Proof.
  intros c o layer. subst c o layer.
  unfold addHorizontalBackgroundLayer, addVerticalBackgroundLayer,
    addHorizontalForegroundLayer, addHorizontalAutoBackgroundLayer,
    addVerticalAutoBackgroundLayer, issued, bind, construct, call.
  cbn [fst snd calls created]. rewrite <- !app_assoc. cbn [app].
  rewrite !skipn_own_length. repeat split.
Qed.

(** ** Descriptors that cannot be validated *)

Lemma check_frozen (cfg : ActorConfig.t) :
  Strict.checkActorConfig (Strict.frozen_object cfg) =
  if Strict.untouched cfg then Strict.Returned (Strict.mkObject true cfg)
  else Strict.Thrown Strict.TypeError.
Proof.
  destruct cfg as [x y w h i b v z].
  unfold Strict.checkActorConfig, Strict.frozen_object, Strict.untouched.
  cbn [Strict.fields ActorConfig.img ActorConfig.box ActorConfig.verts ActorConfig.z].
  destruct (to_boolean i);
    cbn [negb andb Strict.assign Strict.frozen Strict.obind Strict.fields
         ActorConfig.img ActorConfig.box ActorConfig.verts ActorConfig.z];
    [|reflexivity].
  destruct (to_boolean b);
    cbn [negb andb Strict.assign Strict.frozen Strict.obind Strict.fields
         ActorConfig.img ActorConfig.box ActorConfig.verts ActorConfig.z];
    [|reflexivity].
  destruct (to_boolean v);
    cbn [negb andb Strict.assign Strict.frozen Strict.obind Strict.fields
         ActorConfig.img ActorConfig.box ActorConfig.verts ActorConfig.z];
    [|reflexivity].
  destruct (to_boolean z);
    cbn [negb andb Strict.assign Strict.frozen Strict.obind Strict.fields
         ActorConfig.img ActorConfig.box ActorConfig.verts ActorConfig.z];
    [|reflexivity].
  destruct (lt (toNumber z) num_neg2);
    cbn [negb andb Strict.assign Strict.frozen Strict.obind Strict.fields
         ActorConfig.img ActorConfig.box ActorConfig.verts ActorConfig.z];
    [reflexivity|].
  destruct (gt (toNumber z) num_2); reflexivity.
Qed.

(** X17: a descriptor that is undefined or null makes every creation method
    throw a TypeError, and so does a descriptor in a frozen object unless
    validation has nothing to assign (every optional field truthy, and z
    within [-2, 2]); the error comes before any call into the engine, so
    that the stage is as it was.  In particular a frozen descriptor whose box
    is false, whose verts is null or whose z is 0 is rejected although it
    already holds the defaults. *)
Theorem unusable_descriptors_throw_before_any_call (throws : EngineCall -> bool)
        (K : ActorKind) (st : JetLagStage) :
  Strict.make throws K undefined st = (Strict.Thrown Strict.TypeError, st) /\
  Strict.make throws K null st = (Strict.Thrown Strict.TypeError, st) /\
  forall cfg : ActorConfig.t,
    Strict.checkActorConfig (Strict.frozen_object cfg) =
    (if Strict.untouched cfg then Strict.Returned (Strict.mkObject true cfg)
     else Strict.Thrown Strict.TypeError) /\
    (Strict.untouched cfg = false ->
     Strict.make throws K (Strict.frozen_object cfg) st
     = (Strict.Thrown Strict.TypeError, st)).
Proof.
  split; [destruct K; reflexivity|]. split; [destruct K; reflexivity|].
  intros cfg. split; [apply check_frozen|].
  intros U. pose proof (check_frozen cfg) as E. rewrite U in E.
  destruct K;
    unfold Strict.make, Strict.makeObstacle, Strict.makeHero, Strict.makeGoodie,
      Strict.makeEnemy, Strict.makeDestination;
    unfold Strict.bind at 1; unfold Strict.step; rewrite E; reflexivity.
Qed.

Lemma unusable_descriptors_throw_before_any_call_witness :
  let valid := ActorConfig.mk (lit 1) (lit 2) (lit 4) (lit 2) (value EmptyString)
                              (value false) null (value num_0) in
  checkActorConfig valid = valid /\
  Strict.make Strict.quiet Goodie (Strict.frozen_object valid) stage0
  = (Strict.Thrown Strict.TypeError, stage0).
Proof.
  intros valid. split; [reflexivity|].
  apply (proj2 (proj2 (proj2 (unusable_descriptors_throw_before_any_call
                                Strict.quiet Goodie stage0)) valid)).
  reflexivity.
Defined.
